(** * PARCtorch: the Navier-Stokes demonstration notebook

    The repository's program is [demos/NavierStokes.ipynb]: a script that
    drives the PARCtorch library (normalisation, datasets, model, training,
    checkpoint loading, visualisation) and PyTorch.  The notebook is embedded
    here as a program over external calls: every call that leaves the
    notebook is an event answered by an environment, and what the notebook
    itself does (binding names, building paths and literals, unpacking
    batches, leaving its loops) is ordinary Rocq code. *)

From Stdlib Require Import ZArith QArith String Ascii List Lia.
From stdpp Require Import base option list strings pretty gmap.

Import ListNotations.
Set Warnings "-register-all".
Local Open Scope string_scope.
Local Open Scope list_scope.
Local Open Scope Z_scope.

(** ** Python values seen by the notebook *)

(** [pathlib.Path]: a pure POSIX path, kept as its anchor and its parts. *)
Record path := Path_ { absolute : bool; parts : list string }.

(** A tensor: its shape and its entries in row-major order. *)
Record tensor := Tensor { shape : list nat; entries : list Q }.

Inductive value :=
| VNone
| VBool (b : bool)
| VInt (n : Z)
| VFloat (mantissa exponent : Z)   (* mantissa * 10 ^ exponent, as the literal is written *)
| VStr (s : string)
| VPath (p : path)
| VList (items : list value)
| VTuple (items : list value)
| VSlice                           (* the full slice [:] *)
| VFunc (name : string)            (* a function passed as an argument *)
| VTensor (t : tensor)
| VObj (id : nat)                  (* an object owned by a library *)
| VExc (name : string).            (* an exception, as handed to [__exit__] *)

(** ** Calls that leave the notebook *)

Inductive callee :=
| Fn (name : string)                    (* an imported function or class *)
| Method (recv : value) (name : string) (* recv.name(...) *)
| Attr (recv : value) (name : string)   (* recv.name *)
| Apply (recv : value).                 (* recv(...) *)

Record call := Call_ {
  target : callee;
  args : list value;
  kwargs : list (string * value)
}.

Inductive response :=
| Returned (v : value)
| Raised (exc : string).

(** A program is a tree of calls: each call is continued with whatever the
    environment answers. *)
Inductive prog (A : Type) : Type :=
| Ret (a : A)
| Throw (exc : string)
| Call (c : call) (k : response -> prog A).

Arguments Ret {A} a.
Arguments Throw {A} exc.
Arguments Call {A} c k.

Fixpoint prog_bind {A B} (p : prog A) (f : A -> prog B) : prog B :=
  match p with
  | Ret a => f a
  | Throw e => Throw e
  | Call c k => Call c (fun r => prog_bind (k r) f)
  end.

#[export] Instance prog_ret : MRet prog := @Ret.
#[export] Instance prog_mbind : MBind prog := fun A B f p => prog_bind p f.

(** An ordinary call: an exception raised by the callee propagates. *)
Definition invoke (t : callee) (a : list value) (kw : list (string * value)) : prog value :=
  Call (Call_ t a kw)
       (fun r => match r with Returned v => Ret v | Raised e => Throw e end).

(** ** Running a program in an environment *)

Definition handler (W : Type) := call -> W -> response * W.

Record entry := Entry { made : call; got : response }.

Inductive outcome (A : Type) :=
| Done (a : A)
| Uncaught (exc : string).

Arguments Done {A} a.
Arguments Uncaught {A} exc.

Fixpoint exec {W A} (h : handler W) (p : prog A) (w : W) : list entry * outcome A * W :=
  match p with
  | Ret a => ([], Done a, w)
  | Throw e => ([], Uncaught e, w)
  | Call c k =>
      let '(r, w1) := h c w in
      let '(tr, o, w2) := exec h (k r) w1 in
      (Entry c r :: tr, o, w2)
  end.

Definition trace {W A} (h : handler W) (p : prog A) (w : W) : list entry :=
  (exec h p w).1.1.

Definition result {W A} (h : handler W) (p : prog A) (w : W) : outcome A :=
  (exec h p w).1.2.

(** ** What Python itself does for the notebook *)

(** Splitting a string at a separator, as [str.split(sep)] does. *)
Fixpoint split_on (sep : ascii) (s : string) : list string :=
  match s with
  | EmptyString => [EmptyString]
  | String c rest =>
      if Ascii.eqb c sep then EmptyString :: split_on sep rest
      else match split_on sep rest with
           | [] => [String c EmptyString]
           | first :: others => String c first :: others
           end
  end.

Definition is_segment (s : string) : bool :=
  negb (String.eqb s "") && negb (String.eqb s ".").

(** [Path(s)]: empty and "." segments are dropped, ".." is kept. *)
Definition Path (s : string) : path :=
  Path_ (String.prefix "/" s) (List.filter is_segment (split_on "/" s)).

(** [p.parent] *)
Definition parent (p : path) : path :=
  Path_ (absolute p) (removelast (parts p)).

(** [p / s] *)
Definition joinpath (p : path) (s : string) : path :=
  let q := Path s in
  if absolute q then q else Path_ (absolute p) (parts p ++ parts q).

(** [str(p)] *)
Definition path_str (p : path) : string :=
  match parts p with
  | [] => if absolute p then "/" else "."
  | _ => (if absolute p then "/" else "") +:+ String.concat "/" (parts p)
  end.

(** Truth value of a value the notebook can hold itself. *)
Definition truthy (v : value) : bool :=
  match v with
  | VNone => false
  | VBool b => b
  | VInt n => negb (n =? 0)
  | VFloat m _ => negb (m =? 0)
  | VStr s => negb (String.eqb s "")
  | VList l | VTuple l => match l with [] => false | _ => true end
  | _ => true
  end.

(** Truth value of [v] in a condition: an object of a library is asked. *)
Definition truth_of (v : value) : prog bool :=
  match v with
  | VObj _ | VTensor _ =>
      Call (Call_ (Fn "bool") [v] [])
           (fun r => match r with Returned b => Ret (truthy b) | Raised e => Throw e end)
  | _ => Ret (truthy v)
  end.

(** The items of a tuple or a list. *)
Definition sequence_items (v : value) : option (list value) :=
  match v with
  | VTuple l | VList l => Some l
  | _ => None
  end.

(** [next(it)] while unpacking: an early end is a ValueError. *)
Definition next_item (it : value) : prog value :=
  Call (Call_ (Fn "next") [it] [])
       (fun r => match r with
                 | Returned x => Ret x
                 | Raised e => if String.eqb e "StopIteration" then Throw "ValueError" else Throw e
                 end).

(** [a, b, c, d = v]: a tuple or a list must have four items; any other
    value is iterated, and must yield four items and no fifth. *)
Definition unpack4 (v : value) : prog (value * value * value * value) :=
  match sequence_items v with
  | Some [a; b; c; d] => Ret (a, b, c, d)
  | Some _ => Throw "ValueError"
  | None =>
      Call (Call_ (Fn "iter") [v] [])
           (fun r => match r with
                     | Raised e => Throw e
                     | Returned it =>
                         a ← next_item it;
                         b ← next_item it;
                         c ← next_item it;
                         d ← next_item it;
                         Call (Call_ (Fn "next") [it] [])
                              (fun r => match r with
                                        | Returned _ => Throw "ValueError"
                                        | Raised e =>
                                            if String.eqb e "StopIteration"
                                            then Ret (a, b, c, d) else Throw e
                                        end)
                     end)
  end.

(** The integer behind a value the notebook can hold itself. *)
Definition as_int (v : value) : option Z :=
  match v with
  | VInt n => Some n
  | VBool b => Some (if b then 1 else 0)
  | _ => None
  end.

(** The integer an argument of [range] stands for: an object of a library
    is asked for its index. *)
Definition index_of (v : value) : prog Z :=
  match as_int v with
  | Some n => Ret n
  | None =>
      match v with
      | VObj _ | VTensor _ =>
          Call (Call_ (Fn "operator.index") [v] [])
               (fun r => match r with
                         | Returned x =>
                             match as_int x with Some n => Ret n | None => Throw "TypeError" end
                         | Raised e => Throw e
                         end)
      | _ => Throw "TypeError"
      end
  end.

(** [range(n)] *)
Definition range (n : Z) : list Z := List.map Z.of_nat (seq 0 (Z.to_nat n)).

(** [next(it)] inside a [for] statement: exhaustion ends the loop. *)
Definition next_or_stop (it : value) (body : value -> prog unit) : prog unit :=
  Call (Call_ (Fn "next") [it] [])
       (fun r => match r with
                 | Returned x => body x
                 | Raised e => if String.eqb e "StopIteration" then Ret tt else Throw e
                 end).

(** [for x in xs: body; break] -- the body runs for the first item only. *)
Definition for_first (xs : value) (body : value -> prog unit) : prog unit :=
  it ← invoke (Fn "iter") [xs] [];
  next_or_stop it body.

(** [for x, y in zip(xs, ys): body; break] -- [zip] asks [xs] first and
    stops as soon as either side is exhausted. *)
Definition for_first_zip (xs ys : value) (body : value -> value -> prog unit) : prog unit :=
  ix ← invoke (Fn "iter") [xs] [];
  iy ← invoke (Fn "iter") [ys] [];
  next_or_stop ix (fun x => next_or_stop iy (fun y => body x y)).

(** [with cm_expr: v = f(...)] followed by [rest v]: [__exit__] runs on
    both ways out; when it suppresses the exception the name [v] was never
    bound and its first use raises NameError. *)
Definition with_bound (cm : value) (body : call) (rest : value -> prog unit) : prog unit :=
  _ ← invoke (Method cm "__enter__") [] [];
  Call body
       (fun r => match r with
                 | Returned v =>
                     _ ← invoke (Method cm "__exit__") [VNone; VNone; VNone] [];
                     rest v
                 | Raised e =>
                     answer ← invoke (Method cm "__exit__") [VExc e; VExc e; VExc e] [];
                     suppressed ← truth_of answer;
                     if suppressed : bool then Throw "NameError" else Throw e
                 end).

(** ** Names the notebook imports *)

Definition compute_min_max := Fn "PARCtorch.data.normalization.compute_min_max".
Definition DataLoader := Fn "torch.utils.data.DataLoader".
Definition GenericPhysicsDataset := Fn "PARCtorch.data.dataset.GenericPhysicsDataset".
Definition custom_collate_fn := VFunc "PARCtorch.data.dataset.custom_collate_fn".
Definition InitialConditionDataset := Fn "PARCtorch.data.dataset.InitialConditionDataset".
Definition initial_condition_collate_fn :=
  VFunc "PARCtorch.data.dataset.initial_condition_collate_fn".
Definition visualize_channels := Fn "PARCtorch.utilities.viz.visualize_channels".
Definition save_gifs_with_ground_truth :=
  Fn "PARCtorch.utilities.viz.save_gifs_with_ground_truth".
Definition PARCv2 := Fn "PARCtorch.PARCv2.PARCv2".
Definition ADRDifferentiator := Fn "PARCtorch.differentiator.differentiator.ADRDifferentiator".
Definition FiniteDifference := Fn "PARCtorch.differentiator.finitedifference.FiniteDifference".
Definition Integrator := Fn "PARCtorch.integrator.integrator.Integrator".
Definition Heun := Fn "PARCtorch.integrator.heun.Heun".
Definition UNet := Fn "PARCtorch.utilities.unet.UNet".
Definition Adam := Fn "torch.optim.Adam".
Definition train_model := Fn "PARCtorch.train.train_model".
Definition load_model_weights := Fn "PARCtorch.utilities.load.load_model_weights".

(** [torch.device("cuda" if torch.cuda.is_available() else "cpu")] *)
Definition pick_device : prog value :=
  answer ← invoke (Fn "torch.cuda.is_available") [] [];
  available ← truth_of answer;
  invoke (Fn "torch.device") [VStr (if available : bool then "cuda" else "cpu")] [].

(** [f"comparison_batch{batch_idx}"] *)
Definition comparison_prefix (batch_idx : Z) : string :=
  "comparison_batch" +:+ pretty batch_idx.

(** ** The notebook, cell by cell

    Names bound to literals at the top level of the notebook are
    constants here; names bound to what a call returns are bound by the
    program. *)

Definition train_dir : path := Path "../data/navier_stokes/train".
Definition test_dir : path := Path "../data/navier_stokes/test".
Definition min_max_file : path := joinpath (parent train_dir) "ns_min_max.json".
Definition batch_size : Z := 8.
Definition channel_names : list value :=
  [VStr "Pressure (P)"; VStr "Reynolds (R)"; VStr "Velocity U"; VStr "Velocity V"].
Definition custom_cmaps : list value :=
  [VStr "seismic"; VStr "seismic"; VStr "seismic"; VStr "seismic"].
Definition n_fe_features : Z := 128.
Definition model_weights_path : path := joinpath (parent train_dir) "model.pth".
Definition channels : list value := [VStr "pressure"; VStr "Reynolds"; VStr "u"; VStr "v"].
Definition cmaps : list value := [VStr "viridis"; VStr "plasma"; VStr "inferno"; VStr "magma"].

Definition notebook : prog unit :=
  (* Compute Data Normalization *)
  _ ← invoke compute_min_max [VList [VPath train_dir; VPath test_dir]; VPath min_max_file] [];
  (* Data Loader for Training *)
  let future_steps := 1 in
  train_dataset ← invoke GenericPhysicsDataset []
    [("data_dirs", VList [VPath train_dir]);
     ("future_steps", VInt future_steps);
     ("min_max_path", VPath min_max_file)];
  train_loader ← invoke DataLoader [train_dataset]
    [("batch_size", VInt batch_size);
     ("shuffle", VBool false);
     ("num_workers", VInt 1);
     ("pin_memory", VBool true);
     ("collate_fn", custom_collate_fn)];
  (* Visualize the Data *)
  _ ← for_first train_loader (fun batch =>
    '(ic, t0, t1, target) ← unpack4 batch;
    _ ← invoke visualize_channels [ic; t0; t1; target]
      [("channel_names", VList channel_names);
       ("channel_cmaps", VList custom_cmaps)];
    Ret tt);
  (* Build Your PARC Model *)
  _ ← invoke (Fn "sys.path.append") [VStr "../../"] [];
  unet_ns ← invoke UNet
    [VList [VInt 64; VInt (64 * 2); VInt (64 * 4); VInt (64 * 8); VInt (64 * 16)];
     VInt 4;
     VInt n_fe_features]
    [("up_block_use_concat", VList [VBool false; VBool true; VBool false; VBool true]);
     ("skip_connection_indices", VList [VInt 2; VInt 0])];
  right_diff0 ← invoke FiniteDifference [] [("padding_mode", VStr "replicate")];
  right_diff ← invoke (Method right_diff0 "cuda") [] [];
  heun_int0 ← invoke Heun [] [];
  heun_int ← invoke (Method heun_int0 "cuda") [] [];
  diff_ns0 ← invoke ADRDifferentiator
    [VInt 2;
     VInt n_fe_features;
     VList [VInt 2; VInt 3];
     VList [VInt 2; VInt 3];
     unet_ns;
     VStr "constant";
     right_diff;
     VBool false] [];
  diff_ns ← invoke (Method diff_ns0 "cuda") [] [];
  ns_int0 ← invoke Integrator
    [VBool true;
     VList [VTuple [VInt 0; VInt 2; VInt 3; VInt 1]];
     heun_int;
     VList [VNone; VNone; VNone; VNone];
     VStr "constant";
     right_diff] [];
  ns_int ← invoke (Method ns_int0 "cuda") [] [];
  criterion0 ← invoke (Fn "torch.nn.L1Loss") [] [];
  criterion ← invoke (Method criterion0 "cuda") [] [];
  model0 ← invoke PARCv2 [diff_ns; ns_int; criterion] [];
  model ← invoke (Method model0 "cuda") [] [];
  parameters ← invoke (Method model "parameters") [] [];
  optimizer ← invoke Adam [parameters] [("lr", VFloat 1 (-5))];
  (* Train the Model *)
  _ ← invoke train_model [model; train_loader; criterion; optimizer]
    [("num_epochs", VInt 1);
     ("save_dir", VPath (parent train_dir));
     ("app", VStr "ns")];
  (* Load the Model *)
  device ← pick_device;
  model ← invoke load_model_weights [model; VPath model_weights_path; device] [];
  (* Sequence DataLoader *)
  let future_steps := 10 in
  seq_dataset ← invoke InitialConditionDataset []
    [("data_dirs", VList [VPath test_dir]);
     ("future_steps", VInt future_steps);
     ("min_max_path", VPath min_max_file)];
  seq_loader ← invoke DataLoader [seq_dataset]
    [("batch_size", VInt batch_size);
     ("shuffle", VBool false);
     ("num_workers", VInt 1);
     ("pin_memory", VBool true);
     ("collate_fn", initial_condition_collate_fn)];
  (* Ground Truth Loader *)
  gt_dataset ← invoke GenericPhysicsDataset []
    [("data_dirs", VList [VPath test_dir]);
     ("future_steps", VInt future_steps);
     ("min_max_path", VPath min_max_file)];
  gt_loader ← invoke DataLoader [gt_dataset]
    [("batch_size", VInt batch_size);
     ("shuffle", VBool false);
     ("num_workers", VInt 1);
     ("pin_memory", VBool true);
     ("collate_fn", custom_collate_fn)];
  (* Visualize the Results *)
  _ ← invoke (Method model "eval") [] [];
  for_first_zip seq_loader gt_loader (fun seq_batch test_batch =>
    '(ic, t0, t1, _) ← unpack4 seq_batch;
    '(gt_ic, gt_t0, gt_t1, ground_truth) ← unpack4 test_batch;
    device ← pick_device;
    ic ← invoke (Method ic "to") [device] [];
    t0 ← invoke (Method t0 "to") [device] [];
    t1 ← invoke (Method t1 "to") [device] [];
    ground_truth ← invoke (Method ground_truth "to") [device] [];
    no_grad ← invoke (Fn "torch.no_grad") [] [];
    with_bound no_grad (Call_ (Apply model) [ic; t0; t1] []) (fun predictions =>
      predictions_shape ← invoke (Attr predictions "shape") [] [];
      _ ← invoke (Fn "print") [VStr "Predictions shape:"; predictions_shape] [];
      sample ← invoke (Method predictions "__getitem__")
        [VTuple [VSlice; VInt 0; VSlice; VSlice; VSlice]] [];
      sample_shape ← invoke (Attr sample "shape") [] [];
      _ ← invoke (Fn "print") [VStr "Sample prediction for timestep 1:"; sample_shape] [];
      size ← invoke (Method ic "size") [VInt 0] [];
      n ← index_of size;
      match range n with
      | [] => Ret tt
      | batch_idx :: _ =>
          _ ← invoke save_gifs_with_ground_truth []
            [("predictions", predictions);
             ("ground_truth", ground_truth);
             ("channels", VList channels);
             ("cmaps", VList cmaps);
             ("filename_prefix", VStr (comparison_prefix batch_idx));
             ("interval", VFloat 2 (-1));
             ("batch_idx", VInt batch_idx)];
          Ret tt
      end)).

(** ** Properties of every call the notebook can make *)

(** [always seen P p]: along every path of [p], whatever the environment
    answers, each call satisfies [P]; [seen] holds of the calls answered on
    the way. *)
Fixpoint always {A} (seen : entry -> Prop) (P : call -> Prop) (p : prog A) : Prop :=
  match p with
  | Call c k => P c /\ forall r, seen (Entry c r) -> always seen P (k r)
  | _ => True
  end.

(** All inputs of a call, positional ones first. *)
Definition inputs (c : call) : list value := args c ++ List.map snd (kwargs c).

(** ** A small environment to run the notebook in

    Every constructor returns a fresh object, [cuda] and [to] return their
    receiver, [load_model_weights] returns the model it is given, no GPU is
    available, and every loader yields batches of four tensors. *)

Definition demo_tensor (sh : list nat) : value :=
  VTensor (Tensor sh (List.repeat (0 # 1)%Q (foldr Nat.mul 1%nat sh))).

Definition demo_batch : value :=
  VTuple [demo_tensor [2; 4; 1; 1]%nat; demo_tensor []; demo_tensor [1]%nat;
          demo_tensor [1; 2; 4; 1; 1]%nat].

Definition shape_value (v : value) : value :=
  match v with
  | VTensor t => VTuple (List.map (fun d => VInt (Z.of_nat d)) (shape t))
  | _ => VTuple []
  end.

Definition size_value (v : value) (dim : list value) : response :=
  match v, dim with
  | VTensor t, [VInt d] =>
      match shape t !! Z.to_nat d with
      | Some k => Returned (VInt (Z.of_nat k))
      | None => Raised "IndexError"
      end
  | _, _ => Raised "TypeError"
  end.

Definition demo_env : handler nat := fun c n =>
  match target c with
  | Fn name =>
      if String.eqb name "next" then (Returned demo_batch, n)
      else if String.eqb name "torch.cuda.is_available" then (Returned (VBool false), n)
      else if String.eqb name "print" then (Returned VNone, n)
      else if String.eqb name "PARCtorch.utilities.load.load_model_weights"
           then (Returned (default VNone (head (args c))), n)
      else (Returned (VObj n), S n)
  | Method recv name =>
      if String.eqb name "cuda" then (Returned recv, n)
      else if String.eqb name "to" then (Returned recv, n)
      else if String.eqb name "eval" then (Returned recv, n)
      else if String.eqb name "size" then (size_value recv (args c), n)
      else if String.eqb name "__getitem__" then (Returned (demo_tensor [1; 4; 1; 1]%nat), n)
      else if String.eqb name "__exit__" then (Returned VNone, n)
      else (Returned (VObj n), S n)
  | Attr recv name => (Returned (shape_value recv), n)
  | Apply recv => (Returned (demo_tensor [1; 2; 4; 1; 1]%nat), n)
  end.

(** ** What the notebook's names are bound to

    Each predicate says, of the calls of a run and their answers, that a
    value is the one the notebook binds to the name. *)

(** The dataset classes the notebook constructs. *)
Definition is_dataset_constructor (t : callee) : Prop :=
  t = GenericPhysicsDataset \/ t = InitialConditionDataset.

(** [UNet(...)] as the notebook writes it. *)
Definition unet_call : call :=
  Call_ UNet
    [VList [VInt 64; VInt 128; VInt 256; VInt 512; VInt 1024]; VInt 4; VInt 128]
    [("up_block_use_concat", VList [VBool false; VBool true; VBool false; VBool true]);
     ("skip_connection_indices", VList [VInt 2; VInt 0])].

(** [compute_min_max([train_dir, test_dir], min_max_file)] *)
Definition stats_call : call :=
  Call_ compute_min_max [VList [VPath train_dir; VPath test_dir]; VPath min_max_file] [].

Section Bindings.
(** The calls of a run, each with its answer. *)
Variable seen : entry -> Prop.

(** The call [c] was made and returned [v]. *)
Definition answered (c : call) (v : value) : Prop := seen (Entry c (Returned v)).

(** [v] is [x.cuda()] for the object [x] the call [c] returned. *)
Definition answered_cuda (c : call) (v : value) : Prop :=
  exists x, answered (Call_ (Method x "cuda") [] []) v /\ answered c x.

Definition dataset_options (dirs : list path) (horizon : Z) (stats : path)
  : list (string * value) :=
  [("data_dirs", VList (List.map VPath dirs));
   ("future_steps", VInt horizon);
   ("min_max_path", VPath stats)].

Definition loader_options (size : Z) (shuffle : bool) (collate : value)
  : list (string * value) :=
  [("batch_size", VInt size);
   ("shuffle", VBool shuffle);
   ("num_workers", VInt 1);
   ("pin_memory", VBool true);
   ("collate_fn", collate)].

Definition is_train_dataset (v : value) : Prop :=
  answered (Call_ GenericPhysicsDataset [] (dataset_options [train_dir] 1 min_max_file)) v.

Definition is_seq_dataset (v : value) : Prop :=
  answered (Call_ InitialConditionDataset [] (dataset_options [test_dir] 10 min_max_file)) v.

Definition is_gt_dataset (v : value) : Prop :=
  answered (Call_ GenericPhysicsDataset [] (dataset_options [test_dir] 10 min_max_file)) v.

Definition is_train_loader (v : value) : Prop :=
  exists ds,
    answered (Call_ DataLoader [ds] (loader_options 8 false custom_collate_fn)) v /\
    is_train_dataset ds.

Definition is_seq_loader (v : value) : Prop :=
  exists ds,
    answered (Call_ DataLoader [ds] (loader_options 8 false initial_condition_collate_fn)) v /\
    is_seq_dataset ds.

Definition is_gt_loader (v : value) : Prop :=
  exists ds,
    answered (Call_ DataLoader [ds] (loader_options 8 false custom_collate_fn)) v /\
    is_gt_dataset ds.

(** The notebook unpacked [v] into [items]: the items of a tuple or a
    list, or else what iterating [v] yielded. *)
Definition unpacked (v : value) (items : list value) : Prop :=
  sequence_items v = Some items \/
  (sequence_items v = None /\
   exists it, answered (Call_ (Fn "iter") [v] []) it /\
              Forall (fun x => answered (Call_ (Fn "next") [it] []) x) items).

(** [batch] is the first item the loader yielded. *)
Definition first_batch (loader batch : value) : Prop :=
  exists it, answered (Call_ (Fn "next") [it] []) batch /\
             answered (Call_ (Fn "iter") [loader] []) it.

Definition is_unet_ns (v : value) : Prop := answered unet_call v.

Definition is_right_diff (v : value) : Prop :=
  answered_cuda (Call_ FiniteDifference [] [("padding_mode", VStr "replicate")]) v.

Definition is_heun_int (v : value) : Prop := answered_cuda (Call_ Heun [] []) v.

Definition differentiator_args (unet right_diff : value) : list value :=
  [VInt 2; VInt 128; VList [VInt 2; VInt 3]; VList [VInt 2; VInt 3];
   unet; VStr "constant"; right_diff; VBool false].

Definition integrator_args (heun right_diff : value) : list value :=
  [VBool true; VList [VTuple [VInt 0; VInt 2; VInt 3; VInt 1]]; heun;
   VList [VNone; VNone; VNone; VNone]; VStr "constant"; right_diff].

Definition is_diff_ns (v : value) : Prop :=
  exists unet rd,
    answered_cuda (Call_ ADRDifferentiator (differentiator_args unet rd) []) v /\
    is_unet_ns unet /\ is_right_diff rd.

Definition is_ns_int (v : value) : Prop :=
  exists heun rd,
    answered_cuda (Call_ Integrator (integrator_args heun rd) []) v /\
    is_heun_int heun /\ is_right_diff rd.

Definition is_criterion (v : value) : Prop :=
  answered_cuda (Call_ (Fn "torch.nn.L1Loss") [] []) v.

(** The value [PARCv2(diff_ns, ns_int, criterion)] returned. *)
Definition is_constructed_model (v : value) : Prop :=
  exists d i c,
    answered (Call_ PARCv2 [d; i; c] []) v /\
    is_diff_ns d /\ is_ns_int i /\ is_criterion c.

(** [model], as bound when the model is built. *)
Definition is_model (v : value) : Prop :=
  exists v0, answered (Call_ (Method v0 "cuda") [] []) v /\ is_constructed_model v0.

Definition is_optimizer (v : value) : Prop :=
  exists m ps,
    answered (Call_ Adam [ps] [("lr", VFloat 1 (-5))]) v /\
    answered (Call_ (Method m "parameters") [] []) ps /\
    is_model m.

Definition is_device (v : value) : Prop :=
  exists name, answered (Call_ (Fn "torch.device") [VStr name] []) v.

(** [model], as rebound when the weights are loaded. *)
Definition is_loaded_model (v : value) : Prop :=
  exists m dev,
    answered (Call_ load_model_weights [m; VPath model_weights_path; dev] []) v /\
    is_model m /\ is_device dev.

(** [v] is [x.to(device)]. *)
Definition moved (x v : value) : Prop :=
  exists dev, answered (Call_ (Method x "to") [dev] []) v /\ is_device dev.

(** [ic], [t0], [t1] as passed to the model: the first three components
    of the first batch of the sequence loader, moved to the device. *)
Definition is_model_inputs (ic t0 t1 : value) : Prop :=
  exists loader batch a b c d,
    moved a ic /\ moved b t0 /\ moved c t1 /\
    unpacked batch [a; b; c; d] /\
    first_batch loader batch /\ is_seq_loader loader.

(** [predictions]: the loaded model applied to those inputs. *)
Definition is_predictions (v : value) : Prop :=
  exists m ic t0 t1,
    answered (Call_ (Apply m) [ic; t0; t1] []) v /\
    is_loaded_model m /\ is_model_inputs ic t0 t1.

(** [ground_truth]: the fourth component of the first batch of the
    ground-truth loader, moved to the device. *)
Definition is_ground_truth (v : value) : Prop :=
  exists loader batch a b c d,
    moved d v /\
    unpacked batch [a; b; c; d] /\
    first_batch loader batch /\ is_gt_loader loader.

(** What holds of a call the notebook makes, by its target. *)
Definition notebook_call_spec (c : call) : Prop :=
  (target c = compute_min_max -> c = stats_call) /\
  (is_dataset_constructor (target c) ->
     args c = [] /\
     (exists stats, answered stats_call stats) /\
     ((target c = GenericPhysicsDataset /\
       kwargs c = dataset_options [train_dir] 1 min_max_file) \/
      (target c = InitialConditionDataset /\
       kwargs c = dataset_options [test_dir] 10 min_max_file) \/
      (target c = GenericPhysicsDataset /\
       kwargs c = dataset_options [test_dir] 10 min_max_file))) /\
  (target c = DataLoader ->
     exists ds collate,
       args c = [ds] /\ kwargs c = loader_options 8 false collate /\
       ((is_train_dataset ds /\ collate = custom_collate_fn) \/
        (is_seq_dataset ds /\ collate = initial_condition_collate_fn) \/
        (is_gt_dataset ds /\ collate = custom_collate_fn))) /\
  (target c = visualize_channels ->
     exists loader batch ic t0 t1 tgt,
       args c = [ic; t0; t1; tgt] /\
       kwargs c = [("channel_names", VList channel_names);
                   ("channel_cmaps", VList custom_cmaps)] /\
       unpacked batch [ic; t0; t1; tgt] /\
       first_batch loader batch /\ is_train_loader loader) /\
  (target c = UNet -> c = unet_call) /\
  (target c = ADRDifferentiator ->
     exists unet rd,
       args c = differentiator_args unet rd /\ kwargs c = [] /\
       is_unet_ns unet /\ is_right_diff rd) /\
  (target c = Integrator ->
     exists heun rd,
       args c = integrator_args heun rd /\ kwargs c = [] /\
       is_heun_int heun /\ is_right_diff rd) /\
  (target c = PARCv2 ->
     exists d i cr,
       args c = [d; i; cr] /\ kwargs c = [] /\
       is_diff_ns d /\ is_ns_int i /\ is_criterion cr) /\
  (target c = train_model ->
     exists m loader cr opt,
       args c = [m; loader; cr; opt] /\
       kwargs c = [("num_epochs", VInt 1);
                   ("save_dir", VPath (parent train_dir));
                   ("app", VStr "ns")] /\
       is_model m /\ is_train_loader loader /\ is_criterion cr /\ is_optimizer opt) /\
  (target c = load_model_weights ->
     exists m dev,
       args c = [m; VPath model_weights_path; dev] /\ kwargs c = [] /\
       is_model m /\ is_device dev) /\
  (forall m, target c = Method m "eval" -> is_loaded_model m) /\
  (forall m, target c = Apply m ->
     is_loaded_model m /\
     exists ic t0 t1, args c = [ic; t0; t1] /\ kwargs c = [] /\ is_model_inputs ic t0 t1) /\
  (target c = save_gifs_with_ground_truth ->
     exists predictions ground_truth,
       args c = [] /\
       kwargs c = [("predictions", predictions);
                   ("ground_truth", ground_truth);
                   ("channels", VList channels);
                   ("cmaps", VList cmaps);
                   ("filename_prefix", VStr "comparison_batch0");
                   ("interval", VFloat 2 (-1));
                   ("batch_idx", VInt 0)] /\
       is_predictions predictions /\ is_ground_truth ground_truth).
End Bindings.

(** The calls Python makes on the notebook's behalf: iteration, truth
    value, index. *)
Definition protocol_call (c : call) : Prop :=
  target c = Fn "iter" \/ target c = Fn "next" \/
  target c = Fn "bool" \/ target c = Fn "operator.index".

(** The whole-run reading of [seen]: the entries of a trace. *)
Definition within (tr : list entry) : entry -> Prop := fun x => In x tr.

(** The calls of one run of the notebook. *)
Definition run {W} (h : handler W) (w : W) : list entry := trace h notebook w.

(** ** Assumptions on the library that some statements name *)

(** Calling method [name] returns the receiver (as [torch.nn.Module.cuda]
    does). *)
Definition returns_receiver {W} (h : handler W) (name : string) : Prop :=
  forall x a kw w v, (h (Call_ (Method x name) a kw) w).1 = Returned v -> v = x.

(** Calling [t] returns its first argument. *)
Definition returns_first_argument {W} (h : handler W) (t : callee) : Prop :=
  forall x a kw w v, (h (Call_ t (x :: a) kw) w).1 = Returned v -> v = x.

(** ** The inputs the specification lists for the training entry point *)

(** A call with exactly a model, a data loader, a loss criterion, an
    optimizer, an epoch count and an output directory. *)
Definition six_training_inputs (c : call) : Prop :=
  exists m loader criterion optimizer epochs dir,
    inputs c = [m; loader; criterion; optimizer; VInt epochs; VPath dir].

(** ** The channel layout *)





(** The keyword argument [name] of a call. *)
Definition keyword (c : call) (name : string) : option value :=
  snd <$> List.find (fun kv => String.eqb (fst kv) name) (kwargs c).

(** ** Tensors of fields *)






(** * Library behaviour the specification describes

    The PARCtorch functions the notebook calls are not part of the notebook.
    The models below follow the specification's description of them. *)

(** ** Files *)

(** Field values on the grid at one time step, one grid per channel, and a
    simulation as its time steps. *)
Definition grid := list Q.
Definition snapshot := list grid.
Definition simulation := list snapshot.

Inductive json :=
| JNull
| JNumber (q : Q)
| JString (s : string)
| JArray (items : list json)
| JObject (members : list (string * json)).

(** Named parameter tensors of a model. *)
Definition state_dict := list (string * tensor).

(** A comparison animation: per frame, the predicted and the true field. *)
Record animation := Animation {
  colormap : string;
  interval : Q;
  frames : list (tensor * tensor)
}.

Inductive file :=
| DataDirectory (sims : list simulation)
| JsonFile (doc : json)
| Checkpoint (state : state_dict)
| GifFile (a : animation).

(** ** Normalization *)

Module Normalization.

(** The values of channel [ch] over all time steps of all simulations. *)
Definition channel_values (sims : list simulation) (ch : nat) : list Q :=
  sim ← sims; snap ← sim; default [] (snap !! ch).

(** The number of channels: the widest snapshot. *)
Definition channel_count (sims : list simulation) : nat :=
  max_list (sim ← sims; snap ← sim; [length snap]).

Definition lower (a b : Q) : Q := if Qle_bool a b then a else b.
Definition upper (a b : Q) : Q := if Qle_bool a b then b else a.

Definition least (l : list Q) : option Q :=
  match l with
  | [] => None
  | x :: rest => Some (foldl lower x rest)
  end.

Definition greatest (l : list Q) : option Q :=
  match l with
  | [] => None
  | x :: rest => Some (foldl upper x rest)
  end.

Definition json_stat (o : option Q) : json :=
  match o with
  | Some q => JNumber q
  | None => JNull
  end.

(** The statistics document: per channel, its minimum and its maximum. *)
Definition statistics (sims : list simulation) : json :=
  let chs := seq 0 (channel_count sims) in
  JObject
    [("channel_min", JArray ((fun ch => json_stat (least (channel_values sims ch))) <$> chs));
     ("channel_max", JArray ((fun ch => json_stat (greatest (channel_values sims ch))) <$> chs))].

(** The simulations stored under a data directory. *)
Definition read_data_dir (fs : gmap string file) (dir : path) : option (list simulation) :=
  match fs !! path_str dir with
  | Some (DataDirectory sims) => Some sims
  | _ => None
  end.

Definition read_data_dirs (fs : gmap string file) (dirs : list path)
  : option (list simulation) :=
  mjoin <$> mapM (read_data_dir fs) dirs.

(** Modelled from the spec: [PARCtorch.data.normalization.compute_min_max],
    which the notebook imports; its code is not in the notebook.  The
    specification describes it as "a min-max normalization computation
    taking a list of data directories and producing a JSON file of
    per-channel statistics", a file that "contains min/max per channel".
    [None] stands for the exception raised when a directory is missing. *)
Definition compute_min_max (data_dirs : list path) (output_file : path)
    (fs : gmap string file) : option (gmap string file) :=
  sims ← read_data_dirs fs data_dirs;
  Some (<[path_str output_file := JsonFile (statistics sims)]> fs).

(** Reading the document back. *)
Definition json_member (doc : json) (name : string) : option json :=
  match doc with
  | JObject members => snd <$> List.find (fun kv => String.eqb (fst kv) name) members
  | _ => None
  end.

Definition json_item (i : nat) (doc : json) : option json :=
  match doc with
  | JArray items => items !! i
  | _ => None
  end.

Definition json_number (doc : json) : option Q :=
  match doc with
  | JNumber q => Some q
  | _ => None
  end.

Definition channel_min (doc : json) (ch : nat) : option Q :=
  a ← json_member doc "channel_min"; x ← json_item ch a; json_number x.

Definition channel_max (doc : json) (ch : nat) : option Q :=
  a ← json_member doc "channel_max"; x ← json_item ch a; json_number x.

End Normalization.

(** ** Loading weights *)

Module Load.

(** A model held by the library: its parameters and where they live. *)
Record network := Network { weights : state_dict; device : value }.

Record world := World {
  files : gmap string file;
  objects : gmap nat network
}.

(** Modelled from the spec: [PARCtorch.utilities.load.load_model_weights],
    "a weight-loading entry point taking a model, checkpoint path, and
    device"; its code is not in the notebook.  The notebook loads "the
    previously trained model weights into our PARC model" and goes on with
    what the call returns. *)
Definition load_model_weights (model : value) (weights_path : path) (dev : value)
    (w : world) : response * world :=
  match model with
  | VObj id =>
      match objects w !! id, files w !! path_str weights_path with
      | Some _, Some (Checkpoint state) =>
          (Returned model, World (files w) (<[id := Network state dev]> (objects w)))
      | Some _, _ => (Raised "FileNotFoundError", w)
      | None, _ => (Raised "AttributeError", w)
      end
  | _ => (Raised "AttributeError", w)
  end.

End Load.

(** ** Visualization *)

Module Viz.

Definition cells (sh : list nat) : nat := foldr Nat.mul 1%nat sh.

(** [t[i]]: the [i]-th slice along the first axis. *)
Definition select (i : nat) (t : tensor) : option tensor :=
  match shape t with
  | d :: rest =>
      if decide (i < d)%nat
      then Some (Tensor rest (take (cells rest) (drop (i * cells rest) (entries t))))
      else None
  | [] => None
  end.

(** [t[step, batch_idx, ch]] *)
Definition field_at (t : tensor) (step batch_idx ch : nat) : option tensor :=
  a ← select step t; b ← select batch_idx a; select ch b.

Definition steps (t : tensor) : nat := from_option id 0%nat (head (shape t)).

(** One frame per predicted time step: prediction beside ground truth. *)
Definition comparison_frames (predictions ground_truth : tensor) (batch_idx ch : nat)
  : option (list (tensor * tensor)) :=
  mapM (fun step =>
          p ← field_at predictions step batch_idx ch;
          g ← field_at ground_truth step batch_idx ch;
          Some (p, g))
       (seq 0 (steps predictions)).

Definition gif_name (filename_prefix channel : string) : string :=
  filename_prefix +:+ "_" +:+ channel +:+ ".gif".

(** Modelled from the spec: [PARCtorch.utilities.viz.save_gifs_with_ground_truth],
    one of the "visualization entry points taking prediction/ground-truth
    tensors and channel metadata to emit comparison animations"; its code
    is not in the notebook.  The result lists the files written, one per
    channel; [None] stands for the exception raised when a tensor has no
    such time step, sample or channel. *)
Definition save_gifs_with_ground_truth (predictions ground_truth : tensor)
    (channels cmaps : list string) (filename_prefix : string) (interval : Q)
    (batch_idx : nat) : option (list (string * file)) :=
  mapM (fun '(ch, (name, cmap)) =>
          shots ← comparison_frames predictions ground_truth batch_idx ch;
          Some (gif_name filename_prefix name, GifFile (Animation cmap interval shots)))
       (zip (seq 0 (length channels)) (zip channels cmaps)).

End Viz.

(** ** Datasets and loaders *)

Module Loader.

(** What a dataset holds for one index: the fields at the first time step
    ([channels, height, width]), the time of that step, the times
    predicted for, and the fields at those times
    ([timesteps, channels, height, width]). *)
Record sample := Sample {
  initial_condition : tensor;
  start_time : tensor;
  end_time : tensor;
  target_states : tensor
}.

(** A tensor holds as many entries as its shape has cells. *)
Definition well_formed (t : tensor) : bool :=
  (length (entries t) =? Viz.cells (shape t))%nat.

Definition sample_ok (s : sample) : bool :=
  well_formed (initial_condition s) && well_formed (target_states s).

(** All of [ts] have the shape of [t]. *)
Definition same_shape (t : tensor) (ts : list tensor) : bool :=
  forallb (fun x => bool_decide (shape x = shape t)) ts.

(** [torch.stack(ts)]: tensors of one shape side by side along a new first
    axis.  [None] stands for the exception raised for an empty list and
    for tensors of different shapes. *)
Definition stack (ts : list tensor) : option tensor :=
  match ts with
  | [] => None
  | t :: _ =>
      if same_shape t ts
      then Some (Tensor (length ts :: shape t) (x ← ts; entries x))
      else None
  end.

(** [torch.stack(ts, dim=1)]: the new axis comes second; for each index
    along the first axis, the slices of the tensors side by side. *)
Definition stack_second (ts : list tensor) : option tensor :=
  match ts with
  | [] => None
  | t :: _ =>
      match shape t with
      | steps :: rest =>
          if same_shape t ts
          then Some (Tensor (steps :: length ts :: rest)
                            (step ← seq 0 steps; x ← ts;
                             take (Viz.cells rest)
                                  (drop (step * Viz.cells rest) (entries x))))
          else None
      | [] => None
      end
  end.

(** Modelled from the spec: [PARCtorch.data.dataset.custom_collate_fn],
    which the notebook passes to the loaders of a
    [GenericPhysicsDataset]; its code is not in the notebook.  The
    specification says the "loader yields initial condition, start time,
    end time, target tensors"; the notebook writes their shapes beside its
    unpackings: the initial conditions are
    [batch_size, channels, height, width], the start time is a scalar, the
    end time a tensor, the ground truth
    [timesteps, batch_size, channels, height, width].  So the initial
    conditions are stacked batch first, the targets time step first, and
    the batch has the times of its first sample.  [None] stands for the
    exception raised for samples of different shapes. *)
Definition custom_collate_fn (samples : list sample) : option value :=
  first ← head samples;
  ic ← stack (initial_condition <$> samples);
  target ← stack_second (target_states <$> samples);
  Some (VTuple [VTensor ic; VTensor (start_time first); VTensor (end_time first);
                VTensor target]).

(** Consecutive groups of [n] items, the last one possibly shorter. *)
Fixpoint chunks {A} (fuel n : nat) (l : list A) : list (list A) :=
  match fuel, l with
  | S fuel', _ :: _ => take n l :: chunks fuel' n (drop n l)
  | _, _ => []
  end.

(** Modelled from the spec: [torch.utils.data.DataLoader] over a
    [GenericPhysicsDataset] with [shuffle=False] and [custom_collate_fn],
    as the notebook builds it: the samples in dataset order, [batch_size]
    at a time, each group collated when its turn comes.  A batch size of
    zero is refused by the library. *)
Definition DataLoader (dataset : list sample) (batch_size : nat) : list (option value) :=
  match batch_size with
  | O => []
  | _ => custom_collate_fn <$> chunks (length dataset) batch_size dataset
  end.

(** The samples of a dataset agree in the shapes of their fields, and
    their targets have a time axis. *)
Definition uniform (dataset : list sample) : bool :=
  match dataset with
  | [] => true
  | s :: _ =>
      same_shape (initial_condition s) (initial_condition <$> dataset)
      && same_shape (target_states s) (target_states <$> dataset)
      && match shape (target_states s) with [] => false | _ => true end
  end.

End Loader.

(** ** Runs used as examples *)

(** The [i]-th call of the demo run. *)
Definition demo_entry (i : nat) : entry :=
  nth i (run demo_env 0%nat) (Entry (Call_ (Fn "") [] []) (Raised "")).

(** A small file system: one simulation of two time steps under the
    training directory, one of a single time step under the test
    directory, four channels each. *)
Definition demo_files : gmap string file :=
  <[path_str train_dir :=
      DataDirectory [[[[1; 2]; [10; 10]; [-1; 0]; [3; 4]];
                      [[0; 5]; [10; 10]; [2; -3]; [1; 1]]]]%Q]>
  (<[path_str test_dir :=
      DataDirectory [[[[7]; [20]; [0]; [0]]]]%Q]> ∅).

(** Two samples of four channels of one cell each, with targets for two
    time steps. *)
Definition demo_samples : list Loader.sample :=
  [Loader.Sample (Tensor [4; 1]%nat [1; 2; 3; 4]%Q) (Tensor [] [0%Q])
                 (Tensor [2%nat] [1; 2]%Q)
                 (Tensor [2; 4; 1]%nat [11; 12; 13; 14; 21; 22; 23; 24]%Q);
   Loader.Sample (Tensor [4; 1]%nat [5; 6; 7; 8]%Q) (Tensor [] [0%Q])
                 (Tensor [2%nat] [1; 2]%Q)
                 (Tensor [2; 4; 1]%nat [51; 52; 53; 54; 61; 62; 63; 64]%Q)].

(** Their batch: initial conditions batch first, targets time step
    first. *)
Definition demo_collated : value :=
  VTuple [VTensor (Tensor [2; 4; 1]%nat [1; 2; 3; 4; 5; 6; 7; 8]%Q);
          VTensor (Tensor [] [0%Q]);
          VTensor (Tensor [2%nat] [1; 2]%Q);
          VTensor (Tensor [2; 2; 4; 1]%nat
                          [11; 12; 13; 14; 51; 52; 53; 54;
                           21; 22; 23; 24; 61; 62; 63; 64]%Q)].

(** A world with one model (object 12, untrained, on the CPU) and a
    checkpoint at the path the notebook loads. *)
Definition demo_state : state_dict := [("unet.weight", Tensor [2%nat] [1; 2]%Q)].

Definition demo_world : Load.world :=
  Load.World (<[path_str model_weights_path := Checkpoint demo_state]> ∅)
             (<[12%nat := Load.Network [] (VStr "cpu")]> ∅).

(** Predictions and ground truth for two time steps, one sample, four
    channels of one cell. *)
Definition demo_predictions : tensor :=
  Tensor [2; 1; 4; 1]%nat [1; 2; 3; 4; 5; 6; 7; 8]%Q.
Definition demo_ground_truth : tensor :=
  Tensor [2; 1; 4; 1]%nat [11; 12; 13; 14; 15; 16; 17; 18]%Q.

(** The strings of a list of string values. *)
Definition strings_of (l : list value) : list string :=
  omap (fun v => match v with VStr s => Some s | _ => None end) l.

(** * Whole runs

    Properties of a run from its first call to its end: how many calls it
    makes, in which order, and how it ends. *)

(** [along hist Q p]: on every path of [p] to its end, whatever the
    environment answers, [Q] holds of the calls made (latest first, after
    those of [hist]) and of the way the path ends. *)
Fixpoint along {A} (hist : list entry) (Q : list entry -> outcome A -> Prop) (p : prog A)
  : Prop :=
  match p with
  | Ret a => Q hist (Done a)
  | Throw e => Q hist (Uncaught e)
  | Call c k => forall r, along (Entry c r :: hist) Q (k r)
  end.

(** The target is the imported function or class [t]. *)
Definition calls_fn (t : callee) (c : call) : bool :=
  match target c, t with
  | Fn a, Fn b => String.eqb a b
  | _, _ => false
  end.

(** The target is a method named [name]. *)
Definition calls_method (name : string) (c : call) : bool :=
  match target c with
  | Method _ n => String.eqb n name
  | _ => false
  end.

(** The call applies an object: the forward pass of the model. *)
Definition calls_object (c : call) : bool :=
  match target c with
  | Apply _ => true
  | _ => false
  end.

(** The steps of the pipeline, numbered in the order of the notebook's
    cells. *)
Definition stage (c : call) : option nat :=
  if calls_fn compute_min_max c then Some 0%nat
  else if calls_fn visualize_channels c then Some 1%nat
  else if calls_fn PARCv2 c then Some 2%nat
  else if calls_fn train_model c then Some 3%nat
  else if calls_fn load_model_weights c then Some 4%nat
  else if calls_method "eval" c then Some 5%nat
  else if calls_object c then Some 6%nat
  else if calls_fn save_gifs_with_ground_truth c then Some 7%nat
  else None.

Fixpoint increasing (l : list nat) : bool :=
  match l with
  | a :: ((b :: _) as rest) => (a <? b)%nat && increasing rest
  | _ => true
  end.

(** Every application of an object comes right after an [__enter__] and
    right before an [__exit__]. *)
Fixpoint guarded (prev : option call) (l : list call) : bool :=
  match l with
  | [] => true
  | c :: rest =>
      (if calls_object c
       then match prev with Some a => calls_method "__enter__" a | None => false end
            && match rest with n :: _ => calls_method "__exit__" n | [] => false end
       else true)
      && guarded (Some c) rest
  end.

(** The most calls a run can make. *)
Definition most_calls : nat := 73.

(** What holds of the calls of a whole run, first call first. *)
Definition run_checks (calls : list call) : bool :=
  (length calls <=? most_calls)%nat
  && increasing (omap stage calls)
  && guarded None calls.

(** A call that returned, or a [next] that found its iterator exhausted. *)
Definition clean (e : entry) : bool :=
  match got e with
  | Returned _ => true
  | Raised x => calls_fn (Fn "next") (made e) && String.eqb x "StopIteration"
  end.

(** For every application of an object between two method calls, the
    receivers of the two. *)
Fixpoint context_pairs (l : list call) : list (value * value) :=
  match l with
  | a :: rest =>
      match rest with
      | b :: c :: _ =>
          if calls_object b
          then match target a, target c with
               | Method x _, Method y _ => [(x, y)]
               | _, _ => []
               end
          else []
      | _ => []
      end ++ context_pairs rest
  | [] => []
  end.

(** The context left after an application is the one entered before it. *)
Definition contexts_match (calls : list call) : Prop :=
  Forall (fun p => fst p = snd p) (context_pairs calls).

(** A context that was entered is left again, right after the one
    application made inside it. *)
Fixpoint entered_is_left (l : list entry) : bool :=
  match l with
  | [] => true
  | e :: rest =>
      (if calls_method "__enter__" (made e)
       then match got e, rest with
            | Returned _, b :: x :: _ =>
                calls_object (made b) && calls_method "__exit__" (made x)
            | Returned _, _ => false
            | Raised _, _ => true
            end
       else true)
      && entered_is_left rest
  end.

(** A call that raises ends the run with its exception, unless it is a
    [next], whose exception a loop or an unpacking looks at, or an
    application inside a context, which is left first. *)
Fixpoint failure_ends (l : list entry) (o : outcome unit) : Prop :=
  match l with
  | [] => True
  | e :: rest =>
      match got e with
      | Returned _ => failure_ends rest o
      | Raised x =>
          if calls_object (made e) || calls_fn (Fn "next") (made e)
          then failure_ends rest o
          else rest = [] /\ o = Uncaught x
      end
  end.

(** What holds of every run of the notebook taken to its end. *)
Definition whole_run_spec (hist : list entry) (o : outcome unit) : Prop :=
  (run_checks (List.map made (rev hist)) = true /\
   entered_is_left (rev hist) = true /\
   contexts_match (List.map made (rev hist)) /\
   failure_ends (rev hist) o) /\
  match o with
  | Done _ => forallb clean hist = true
  | Uncaught _ => True
  end.

(** ** Environments for the examples *)

(** The library fails at once. *)
Definition broken_env : handler unit :=
  fun _ w => (Raised "FileNotFoundError", w).

(** The demo environment with loaders that yield nothing. *)
Definition empty_env : handler nat := fun c n =>
  if calls_fn (Fn "next") c then (Raised "StopIteration", n) else demo_env c n.

(** An environment that answers with objects wherever it can, so that
    Python has to ask for every item, truth value and index: each batch is
    an object that yields four items, and the counter of the world tells
    how many items the batch at hand has yielded. *)
Definition asking_env : handler nat := fun c n =>
  match target c, args c with
  | Fn name, [VStr "batch iterator"] =>
      if String.eqb name "next"
      then if (n <? 4)%nat then (Returned (VObj n), S n) else (Raised "StopIteration", 0%nat)
      else (Returned (VObj 0), n)
  | Fn name, [VStr "batch"] =>
      if String.eqb name "iter" then (Returned (VStr "batch iterator"), 0%nat)
      else (Returned (VObj 0), n)
  | Fn name, [_] =>
      if String.eqb name "next" then (Returned (VStr "batch"), n)
      else if String.eqb name "bool" then (Returned (VBool true), n)
      else if String.eqb name "operator.index" then (Returned (VInt 1), n)
      else (Returned (VObj 0), n)
  | _, _ => (Returned (VObj 0), n)
  end.

(** * How the values of the notebook hang together *)

Section Pipeline.
(** The calls of a run, each with its answer. *)
Variable seen : entry -> Prop.

(** What holds of a call the notebook makes, by its target: where its
    arguments come from. *)
Definition pipeline_call_spec (c : call) : Prop :=
  (target c = Adam ->
     exists m ps,
       args c = [ps] /\ kwargs c = [("lr", VFloat 1 (-5))] /\
       answered seen (Call_ (Method m "parameters") [] []) ps /\
       is_model seen m) /\
  (target c = train_model ->
     exists m0 m loader cr opt d i ps,
       args c = [m; loader; cr; opt] /\
       answered seen (Call_ (Method m0 "cuda") [] []) m /\
       answered seen (Call_ PARCv2 [d; i; cr] []) m0 /\
       answered seen (Call_ Adam [ps] [("lr", VFloat 1 (-5))]) opt /\
       answered seen (Call_ (Method m "parameters") [] []) ps) /\
  (target c = PARCv2 ->
     exists d i cr d0 i0 unet heun rd,
       args c = [d; i; cr] /\
       answered seen (Call_ (Method d0 "cuda") [] []) d /\
       answered seen (Call_ ADRDifferentiator (differentiator_args unet rd) []) d0 /\
       answered seen (Call_ (Method i0 "cuda") [] []) i /\
       answered seen (Call_ Integrator (integrator_args heun rd) []) i0 /\
       is_right_diff seen rd) /\
  (forall m, target c = Apply m ->
     exists ic t0 t1 a b c' dev,
       args c = [ic; t0; t1] /\
       answered seen (Call_ (Method a "to") [dev] []) ic /\
       answered seen (Call_ (Method b "to") [dev] []) t0 /\
       answered seen (Call_ (Method c' "to") [dev] []) t1 /\
       is_device seen dev) /\
  (target c = save_gifs_with_ground_truth ->
     exists p g m ic t0 t1 a d dev,
       keyword c "predictions" = Some p /\
       keyword c "ground_truth" = Some g /\
       answered seen (Call_ (Apply m) [ic; t0; t1] []) p /\
       answered seen (Call_ (Method a "to") [dev] []) ic /\
       answered seen (Call_ (Method d "to") [dev] []) g /\
       is_device seen dev) /\
  (forall cm, target c = Method cm "__enter__" ->
     answered seen (Call_ (Fn "torch.no_grad") [] []) cm) /\
  (forall cm, target c = Method cm "__exit__" ->
     answered seen (Call_ (Fn "torch.no_grad") [] []) cm) /\
  (target c = Fn "torch.device" ->
     exists answer name,
       args c = [VStr name] /\ kwargs c = [] /\
       answered seen (Call_ (Fn "torch.cuda.is_available") [] []) answer /\
       (name = "cuda" \/ name = "cpu") /\
       (answer = VBool true -> name = "cuda") /\
       (answer = VBool false -> name = "cpu")).
End Pipeline.


(** * Proofs *)

(** ** Running and the safety predicate *)

Lemma trace_call {W A} (h : handler W) (c : call) (k : response -> prog A) (w : W) :
  trace h (Call c k) w = Entry c (h c w).1 :: trace h (k (h c w).1) (h c w).2.
Proof.
  unfold trace. simpl. destruct (h c w) as [r w1]. simpl.
  destruct (exec h (k r) w1) as [[tr o] w2]. reflexivity.
Qed.

Lemma always_sound {W A} (seen : entry -> Prop) (P : call -> Prop)
      (h : handler W) (p : prog A) :
  forall w,
    (forall x, In x (trace h p w) -> seen x) ->
    always seen P p ->
    forall e, In e (trace h p w) -> P (made e).
Proof.
  induction p as [a | exc | c k IH]; intros w Hseen Hp e Hin.
  - destruct Hin.
  - destruct Hin.
  - rewrite trace_call in Hin, Hseen. destruct Hp as [Hc Hk].
    destruct Hin as [<- | Hin]; [exact Hc |].
    apply (IH (h c w).1 (h c w).2); [ | | exact Hin].
    + intros x Hx. apply Hseen. right. exact Hx.
    + apply Hk, Hseen. left. reflexivity.
Qed.

Lemma range_head (n z : Z) (l : list Z) : range n = z :: l -> z = 0.
Proof.
  unfold range. destruct (Z.to_nat n); simpl; intros H;
    [discriminate H | injection H as <- _; reflexivity].
Qed.

(** ** What Python does on the way *)

Lemma always_bind_assoc {A B C} (seen : entry -> Prop) (P : call -> Prop)
      (m : prog A) (f : A -> prog B) (g : B -> prog C) :
  always seen P (prog_bind m (fun x => prog_bind (f x) g)) ->
  always seen P (prog_bind (prog_bind m f) g).
Proof.
  induction m as [a | exc | c k IH]; cbn; [tauto | tauto |].
  intros [Hc Hk]. split; [exact Hc |]. intros r Hr. apply IH, Hk, Hr.
Qed.

Section Protocol.
Context {A : Type} (seen : entry -> Prop) (P : call -> Prop).
Hypothesis protocol : forall c, protocol_call c -> P c.

Lemma always_unpack4 (v : value) (k : value * value * value * value -> prog A) :
  (forall a b c d, unpacked seen v [a; b; c; d] -> always seen P (k (a, b, c, d))) ->
  always seen P (unpack4 v ≫= k).
Proof.
  intros Hk. unfold unpack4.
  destruct (sequence_items v) as [[| a [| b [| c [| d [| ? ?]]]]] |] eqn:E;
    try exact I.
  - apply Hk. left. exact E.
  - cbn. split; [apply protocol; left; reflexivity |].
    intros [it | e] Hit; [| exact I].
    do 4 (cbn; split; [apply protocol; right; left; reflexivity |];
          intros [? | e] ?; cbn;
          [| destruct (String.eqb e "StopIteration"); exact I]).
    split; [apply protocol; right; left; reflexivity |].
    intros [? | e] _; cbn; [exact I |].
    destruct (String.eqb e "StopIteration"); cbn; [| exact I].
    apply Hk. right. split; [exact E |].
    exists it. split; [exact Hit |]. repeat constructor; assumption.
Qed.

Lemma always_truth_of (v : value) (k : bool -> prog A) :
  (forall b, always seen P (k b)) ->
  always seen P (truth_of v ≫= k).
Proof.
  intros Hk.
  destruct v; try apply Hk;
    (cbn; split; [apply protocol; right; right; left; reflexivity |];
     intros [x | e] _; [apply Hk | exact I]).
Qed.

Lemma always_index_of (v : value) (k : Z -> prog A) :
  (forall n, always seen P (k n)) ->
  always seen P (index_of v ≫= k).
Proof.
  intros Hk. unfold index_of.
  destruct (as_int v) as [n |]; [apply Hk |].
  destruct v; try exact I;
    (cbn; split; [apply protocol; right; right; right; reflexivity |];
     intros [x | e] _; [| exact I];
     cbn; destruct (as_int x); [apply Hk | exact I]).
Qed.

End Protocol.

(** ** Walking the notebook *)

Create HintDb names discriminated.
#[local] Hint Unfold compute_min_max DataLoader GenericPhysicsDataset InitialConditionDataset
  visualize_channels save_gifs_with_ground_truth PARCv2 ADRDifferentiator FiniteDifference
  Integrator Heun UNet Adam train_model load_model_weights : names.

Create HintDb bindings discriminated.
#[local] Hint Unfold answered answered_cuda is_train_dataset is_seq_dataset is_gt_dataset
  is_train_loader is_seq_loader is_gt_loader first_batch is_unet_ns is_right_diff is_heun_int
  is_diff_ns is_ns_int is_criterion is_constructed_model is_model is_optimizer is_device
  is_loaded_model moved is_model_inputs is_predictions is_ground_truth : bindings.

Ltac settle :=
  repeat first
    [ reflexivity
    | eassumption
    | match goal with
      | |- _ \/ _ => first [ solve [left; settle] | solve [right; settle] ]
      end
    | eexists
    | split ].

(** The conjunct of [notebook_call_spec] for another target. *)
Ltac mismatch :=
  intros;
  match goal with
  | H : is_dataset_constructor _ |- _ =>
      destruct H as [H | H]; cbn [target] in H; autounfold with names in H; discriminate H
  | H : target _ = _ |- _ => cbn [target] in H; autounfold with names in H; discriminate H
  end.

Ltac call_spec :=
  unfold notebook_call_spec; repeat split;
  first [ mismatch
        | intros;
          try match goal with
              | H : target _ = Method _ _ |- _ => cbn [target] in H; injection H as <-
              | H : target _ = Apply _ |- _ => cbn [target] in H; injection H as <-
              end;
          autounfold with bindings; settle ].

(** The calls Python makes on the way are none of the calls specified. *)
Lemma protocol_calls_meet_spec (seen : entry -> Prop) (c : call) :
  protocol_call c -> notebook_call_spec seen c.
Proof.
  intros Hc. unfold notebook_call_spec, protocol_call, is_dataset_constructor in *.
  autounfold with names in *.
  repeat split; intros;
    repeat match goal with
           | H : _ \/ _ |- _ => destruct H as [H | H]
           end;
    congruence.
Qed.

(** One step along the notebook: the call at hand meets its specification
    ([side]); then follow each answer of the environment. *)
Ltac walk side :=
  repeat
    (lazymatch goal with
     | |- always ?seen ?P ?p =>
         let p' := eval hnf in p in
         lazymatch p' with
         | Call ?c ?k =>
             change (P c /\ forall r, seen (Entry c r) -> always seen P (k r));
             split; [ side | intros [?v | ?exc] ? ]
         | Ret _ => exact I
         | Throw _ => exact I
         | _ =>
             change (always seen P p');
             cbn [mbind prog_mbind prog_bind];
             repeat apply always_bind_assoc;
             lazymatch goal with
             | |- always _ _ (prog_bind (unpack4 _) _) =>
                 apply always_unpack4; [ apply protocol_calls_meet_spec | intros ? ? ? ? ? ]
             | |- always _ _ (prog_bind (truth_of _) _) =>
                 apply always_truth_of; [ apply protocol_calls_meet_spec | intros ? ]
             | |- always _ _ (prog_bind (index_of _) _) =>
                 apply always_index_of; [ apply protocol_calls_meet_spec | intros ? ]
             | |- always _ _ ?q =>
                 match q with
                 | context [String.eqb ?e "StopIteration"] =>
                     is_var e; destruct (String.eqb e "StopIteration")
                 | context [range ?n] =>
                     is_var n;
                     let E := fresh "E" in
                     destruct (range n) eqn:E; [ | apply range_head in E; subst ]
                 | context [if ?b then _ else _] => is_var b; destruct b
                 end
             end
         end
     end).

(** Every call of the notebook, whatever the environment answers, is the
    call the notebook's text makes, on the values its names are bound to. *)
Lemma notebook_calls (seen : entry -> Prop) :
  always seen (notebook_call_spec seen) notebook.
Proof.
  unfold notebook.
  walk ltac:(solve [call_spec]).
Qed.

(** ** Every run of the notebook *)

Lemma run_meets_spec {W} (h : handler W) (w : W) (e : entry) :
  In e (run h w) -> notebook_call_spec (within (run h w)) (made e).
Proof.
  apply (always_sound (within (run h w)) (notebook_call_spec (within (run h w))) h notebook w).
  - intros x Hx. exact Hx.
  - apply notebook_calls.
Qed.

(** Each recorded answer is what the environment gave to the recorded call. *)
Lemma trace_answers {W A} (h : handler W) (p : prog A) :
  forall w e, In e (trace h p w) -> exists w', (h (made e) w').1 = got e.
Proof.
  induction p as [a | exc | c k IH]; intros w e Hin.
  - destruct Hin.
  - destruct Hin.
  - rewrite trace_call in Hin. destruct Hin as [<- | Hin].
    + exists w. reflexivity.
    + exact (IH _ _ _ Hin).
Qed.

(** The first call of every run is the normalization call. *)
Lemma run_starts_with_statistics {W} (h : handler W) (w : W) :
  exists r rest, run h w = Entry stats_call r :: rest.
Proof.
  unfold run, notebook. cbn [mbind prog_mbind prog_bind invoke].
  rewrite trace_call. eauto.
Qed.

Lemma demo_entry_in (i : nat) : (i < length (run demo_env 0%nat))%nat ->
  In (demo_entry i) (run demo_env 0%nat).
Proof. intros Hi. apply nth_In. exact Hi. Qed.

Lemma demo_run_length : length (run demo_env 0%nat) = 52%nat.
Proof. vm_compute. reflexivity. Qed.

(** In the demo environment the notebook runs to its end. *)
Example demo_run_completes : result demo_env notebook 0%nat = Done tt.
Proof. vm_compute. reflexivity. Qed.

Ltac demo_in := apply demo_entry_in; rewrite demo_run_length; lia.

(** ** The claims about the notebook's calls *)

(** C4: in every run of the notebook, every dataset constructor call
    (GenericPhysicsDataset or InitialConditionDataset) passes exactly a
    list of data directories, a forecast horizon and the path of the
    normalization statistics file, each by keyword, and nothing else. *)
Theorem dataset_constructors_take_dirs_horizon_stats :
  forall W (h : handler W) (w : W) (e : entry),
    In e (run h w) ->
    is_dataset_constructor (target (made e)) ->
    exists dirs horizon stats,
      args (made e) = [] /\
      kwargs (made e) = [("data_dirs", VList (List.map VPath dirs));
                         ("future_steps", VInt horizon);
                         ("min_max_path", VPath stats)].
Proof.
  intros W h w e Hin Hds.
  destruct (run_meets_spec h w e Hin) as (_ & Hspec & _).
  destruct (Hspec Hds) as (Hargs & _ & [[_ Hkw] | [[_ Hkw] | [_ Hkw]]]);
    rewrite Hargs, Hkw; eexists _, _, _; split; reflexivity.
Qed.

Lemma dataset_constructors_take_dirs_horizon_stats_witness :
  (exists dirs horizon stats,
     args (made (demo_entry 1)) = [] /\
     kwargs (made (demo_entry 1)) = [("data_dirs", VList (List.map VPath dirs));
                                     ("future_steps", VInt horizon);
                                     ("min_max_path", VPath stats)]) /\
  (exists dirs horizon stats,
     args (made (demo_entry 26)) = [] /\
     kwargs (made (demo_entry 26)) = [("data_dirs", VList (List.map VPath dirs));
                                      ("future_steps", VInt horizon);
                                      ("min_max_path", VPath stats)]).
Proof.
  split.
  - apply (dataset_constructors_take_dirs_horizon_stats nat demo_env 0%nat (demo_entry 1)).
    + demo_in.
    + left. vm_compute. reflexivity.
  - apply (dataset_constructors_take_dirs_horizon_stats nat demo_env 0%nat (demo_entry 26)).
    + demo_in.
    + right. vm_compute. reflexivity.
Defined.

(** C3 (as stated, refuted): the demo run makes a call to [train_model]
    that does not have exactly the six inputs model, data loader, loss
    criterion, optimizer, epoch count and output directory: it has seven,
    the last one being the keyword [app = "ns"]. *)
Lemma train_model_call_has_a_seventh_input :
  exists e,
    In e (run demo_env 0%nat) /\
    target (made e) = train_model /\
    ~ six_training_inputs (made e) /\
    length (inputs (made e)) = 7%nat /\
    keyword (made e) "app" = Some (VStr "ns").
Proof.
  exists (demo_entry 22). split; [demo_in |].
  split; [vm_compute; reflexivity |].
  split; [| split; vm_compute; reflexivity].
  intros (m & loader & cr & opt & epochs & dir & Heq).
  vm_compute in Heq. discriminate Heq.
Qed.

(** C3 (amended): in every run of the notebook, every call to
    [train_model] passes, in order, the model, the training data loader, the
    loss criterion and the optimizer, and by keyword the epoch count
    [num_epochs = 1], the output directory [save_dir = train_dir.parent]
    and the application tag [app = "ns"]: seven inputs. *)
Theorem train_model_call_inputs :
  forall W (h : handler W) (w : W) (e : entry),
    In e (run h w) ->
    target (made e) = train_model ->
    exists m loader cr opt,
      args (made e) = [m; loader; cr; opt] /\
      kwargs (made e) = [("num_epochs", VInt 1);
                         ("save_dir", VPath (parent train_dir));
                         ("app", VStr "ns")] /\
      is_model (within (run h w)) m /\
      is_train_loader (within (run h w)) loader /\
      is_criterion (within (run h w)) cr /\
      is_optimizer (within (run h w)) opt /\
      length (inputs (made e)) = 7%nat.
Proof.
  intros W h w e Hin Ht.
  destruct (run_meets_spec h w e Hin) as (_ & _ & _ & _ & _ & _ & _ & _ & Hspec & _).
  destruct (Hspec Ht) as (m & loader & cr & opt & Ha & Hk & Hm & Hl & Hc & Ho).
  exists m, loader, cr, opt. repeat split; try assumption.
  unfold inputs. rewrite Ha, Hk. reflexivity.
Qed.

Lemma train_model_call_inputs_witness :
  exists m loader cr opt,
    args (made (demo_entry 22)) = [m; loader; cr; opt] /\
    kwargs (made (demo_entry 22)) = [("num_epochs", VInt 1);
                                     ("save_dir", VPath (parent train_dir));
                                     ("app", VStr "ns")] /\
    is_model (within (run demo_env 0%nat)) m /\
    is_train_loader (within (run demo_env 0%nat)) loader /\
    is_criterion (within (run demo_env 0%nat)) cr /\
    is_optimizer (within (run demo_env 0%nat)) opt /\
    length (inputs (made (demo_entry 22))) = 7%nat.
Proof.
  apply (train_model_call_inputs nat demo_env 0%nat (demo_entry 22)).
  - demo_in.
  - vm_compute. reflexivity.
Defined.

(** Where the output directory of training is. *)
Example save_dir_is_the_data_directory :
  path_str (parent train_dir) = "../data/navier_stokes".
Proof. reflexivity. Qed.

(** *** The model *)

Lemma cuda_answer {W} (h : handler W) (w : W) (x v : value) :
  returns_receiver h "cuda" ->
  answered (within (run h w)) (Call_ (Method x "cuda") [] []) v -> v = x.
Proof.
  intros Hcuda Hin.
  destruct (trace_answers h notebook w _ Hin) as (w' & Hgot).
  exact (Hcuda _ _ _ _ _ Hgot).
Qed.

Lemma model_is_constructed {W} (h : handler W) (w : W) (m : value) :
  returns_receiver h "cuda" ->
  is_model (within (run h w)) m -> is_constructed_model (within (run h w)) m.
Proof.
  intros Hcuda (v0 & Hc & Hm). rewrite (cuda_answer h w v0 m Hcuda Hc). exact Hm.
Qed.

Lemma loaded_model_is_constructed {W} (h : handler W) (w : W) (m : value) :
  returns_receiver h "cuda" ->
  returns_first_argument h load_model_weights ->
  is_loaded_model (within (run h w)) m -> is_constructed_model (within (run h w)) m.
Proof.
  intros Hcuda Hload (m0 & dev & Hin & Hm0 & _).
  destruct (trace_answers h notebook w _ Hin) as (w' & Hgot).
  rewrite (Hload _ _ _ _ _ Hgot).
  exact (model_is_constructed h w m0 Hcuda Hm0).
Qed.

(** C5: in every run of the notebook, every call to [PARCv2] passes exactly
    the differentiator, the integrator and the loss criterion, in that
    order; the model trained is that call's result after [.cuda()], and the
    model that predicts is what [load_model_weights] returned for it.  When
    [.cuda()] returns its receiver and [load_model_weights] returns the model
    it is given, both are the very value the constructor returned. *)
Theorem parcv2_call_and_model_use :
  forall W (h : handler W) (w : W) (e : entry),
    In e (run h w) ->
    (target (made e) = PARCv2 ->
       exists d i cr,
         args (made e) = [d; i; cr] /\ kwargs (made e) = [] /\
         is_diff_ns (within (run h w)) d /\
         is_ns_int (within (run h w)) i /\
         is_criterion (within (run h w)) cr) /\
    (target (made e) = train_model ->
       exists m, head (args (made e)) = Some m /\ is_model (within (run h w)) m) /\
    (forall m, target (made e) = Apply m -> is_loaded_model (within (run h w)) m) /\
    (returns_receiver h "cuda" ->
     returns_first_argument h load_model_weights ->
       (target (made e) = train_model ->
          exists m, head (args (made e)) = Some m /\
                    is_constructed_model (within (run h w)) m) /\
       (forall m, target (made e) = Apply m -> is_constructed_model (within (run h w)) m)).
Proof.
  intros W h w e Hin.
  destruct (run_meets_spec h w e Hin)
    as (_ & _ & _ & _ & _ & _ & _ & Hparc & Htrain & _ & _ & Happly & _).
  assert (Hfirst : target (made e) = train_model ->
            exists m, head (args (made e)) = Some m /\ is_model (within (run h w)) m).
  { intros Ht. destruct (Htrain Ht) as (m & loader & cr & opt & Ha & _ & Hm & _).
    exists m. rewrite Ha. split; [reflexivity | exact Hm]. }
  split; [exact Hparc |].
  split; [exact Hfirst |].
  split; [intros m Ht; exact (proj1 (Happly m Ht)) |].
  intros Hcuda Hload. split.
  - intros Ht. destruct (Hfirst Ht) as (m & Hhd & Hm).
    exists m. split; [exact Hhd | exact (model_is_constructed h w m Hcuda Hm)].
  - intros m Ht.
    exact (loaded_model_is_constructed h w m Hcuda Hload (proj1 (Happly m Ht))).
Qed.

Lemma demo_cuda_returns_receiver : returns_receiver demo_env "cuda".
Proof.
  intros x a kw w v H. cbn in H. injection H as <-. reflexivity.
Qed.

Lemma demo_load_returns_model : returns_first_argument demo_env load_model_weights.
Proof.
  intros x a kw w v H. cbn in H. injection H as <-. reflexivity.
Qed.

Lemma parcv2_call_and_model_use_witness :
  (exists d i cr,
     args (made (demo_entry 18)) = [d; i; cr] /\ kwargs (made (demo_entry 18)) = [] /\
     is_diff_ns (within (run demo_env 0%nat)) d /\
     is_ns_int (within (run demo_env 0%nat)) i /\
     is_criterion (within (run demo_env 0%nat)) cr) /\
  (exists m, head (args (made (demo_entry 22))) = Some m /\
             is_constructed_model (within (run demo_env 0%nat)) m) /\
  is_constructed_model (within (run demo_env 0%nat)) (VObj 12).
Proof.
  split; [| split].
  - apply (parcv2_call_and_model_use nat demo_env 0%nat (demo_entry 18)).
    + demo_in.
    + vm_compute. reflexivity.
  - apply (parcv2_call_and_model_use nat demo_env 0%nat (demo_entry 22)).
    + demo_in.
    + exact demo_cuda_returns_receiver.
    + exact demo_load_returns_model.
    + vm_compute. reflexivity.
  - apply (parcv2_call_and_model_use nat demo_env 0%nat (demo_entry 43)).
    + demo_in.
    + exact demo_cuda_returns_receiver.
    + exact demo_load_returns_model.
    + vm_compute. reflexivity.
Defined.

(** *** The channel layout *)








(** *** The normalization file *)

(** C10: in every run of the notebook, the first call computes the
    statistics over both the training and the test directory into
    [ns_min_max.json]; no other call to [compute_min_max] is made; and every
    dataset constructed (training, sequence, ground truth) is given that
    same file as [min_max_path]. *)
Theorem datasets_share_the_normalization_file :
  args stats_call = [VList [VPath train_dir; VPath test_dir]; VPath min_max_file] /\
  path_str min_max_file = "../data/navier_stokes/ns_min_max.json" /\
  forall W (h : handler W) (w : W),
    (exists r rest, run h w = Entry stats_call r :: rest) /\
    forall e, In e (run h w) ->
      (target (made e) = compute_min_max -> made e = stats_call) /\
      (is_dataset_constructor (target (made e)) ->
         keyword (made e) "min_max_path" = Some (VPath min_max_file) /\
         (exists stats, answered (within (run h w)) stats_call stats) /\
         (kwargs (made e) = dataset_options [train_dir] 1 min_max_file \/
          kwargs (made e) = dataset_options [test_dir] 10 min_max_file)).
Proof.
  split; [reflexivity |]. split; [reflexivity |].
  intros W h w. split; [apply run_starts_with_statistics |].
  intros e Hin.
  destruct (run_meets_spec h w e Hin) as (Hstats & Hds & _).
  split; [exact Hstats |].
  intros Ht. destruct (Hds Ht) as (_ & Hseen & [[_ Hk] | [[_ Hk] | [_ Hk]]]);
    (split; [unfold keyword; rewrite Hk; reflexivity | split; [exact Hseen |]]);
    rewrite Hk; auto.
Qed.

Lemma datasets_share_the_normalization_file_witness :
  keyword (made (demo_entry 1)) "min_max_path" = Some (VPath min_max_file) /\
  keyword (made (demo_entry 26)) "min_max_path" = Some (VPath min_max_file) /\
  keyword (made (demo_entry 28)) "min_max_path" = Some (VPath min_max_file) /\
  made (demo_entry 0) = stats_call.
Proof.
  pose proof (proj2 (proj2 datasets_share_the_normalization_file) nat demo_env 0%nat) as [_ H].
  split; [| split; [| split]].
  - apply (H (demo_entry 1)); [demo_in | left; vm_compute; reflexivity].
  - apply (H (demo_entry 26)); [demo_in | right; vm_compute; reflexivity].
  - apply (H (demo_entry 28)); [demo_in | left; vm_compute; reflexivity].
  - apply (H (demo_entry 0)); [demo_in | vm_compute; reflexivity].
Defined.

(** ** The library models *)

(** *** Normalization *)

Lemma lower_le (a b : Q) : (Normalization.lower a b <= a)%Q /\ (Normalization.lower a b <= b)%Q.
Proof.
  unfold Normalization.lower. destruct (Qle_bool a b) eqn:E.
  - split; [apply Qle_refl | apply Qle_bool_iff; exact E].
  - split; [| apply Qle_refl].
    apply Qlt_le_weak, Qnot_le_lt. intros H. apply Qle_bool_iff in H. congruence.
Qed.

Lemma upper_ge (a b : Q) : (a <= Normalization.upper a b)%Q /\ (b <= Normalization.upper a b)%Q.
Proof.
  unfold Normalization.upper. destruct (Qle_bool a b) eqn:E.
  - split; [apply Qle_bool_iff; exact E | apply Qle_refl].
  - split; [apply Qle_refl |].
    apply Qlt_le_weak, Qnot_le_lt. intros H. apply Qle_bool_iff in H. congruence.
Qed.

Lemma lower_choice (a b : Q) : Normalization.lower a b = a \/ Normalization.lower a b = b.
Proof. unfold Normalization.lower. destruct (Qle_bool a b); auto. Qed.

Lemma upper_choice (a b : Q) : Normalization.upper a b = a \/ Normalization.upper a b = b.
Proof. unfold Normalization.upper. destruct (Qle_bool a b); auto. Qed.

Lemma foldl_lower_spec (rest : list Q) :
  forall x,
    foldl Normalization.lower x rest ∈ x :: rest /\
    forall y, y ∈ x :: rest -> (foldl Normalization.lower x rest <= y)%Q.
Proof.
  induction rest as [| z rest IH]; intros x; simpl.
  - split; [left |]. intros y Hy. apply list_elem_of_singleton in Hy as ->. apply Qle_refl.
  - destruct (IH (Normalization.lower x z)) as [Hin Hle]. split.
    + apply elem_of_cons in Hin as [-> | Hin].
      * destruct (lower_choice x z) as [-> | ->]; [left | right; left].
      * right. right. exact Hin.
    + intros y Hy.
      assert (Hm : (foldl Normalization.lower (Normalization.lower x z) rest
                    <= Normalization.lower x z)%Q) by (apply Hle; left).
      apply elem_of_cons in Hy as [Hy | Hy].
      * subst y. exact (Qle_trans _ _ _ Hm (proj1 (lower_le x z))).
      * apply elem_of_cons in Hy as [Hy | Hy].
        -- subst y. exact (Qle_trans _ _ _ Hm (proj2 (lower_le x z))).
        -- apply Hle. right. exact Hy.
Qed.

Lemma foldl_upper_spec (rest : list Q) :
  forall x,
    foldl Normalization.upper x rest ∈ x :: rest /\
    forall y, y ∈ x :: rest -> (y <= foldl Normalization.upper x rest)%Q.
Proof.
  induction rest as [| z rest IH]; intros x; simpl.
  - split; [left |]. intros y Hy. apply list_elem_of_singleton in Hy as ->. apply Qle_refl.
  - destruct (IH (Normalization.upper x z)) as [Hin Hle]. split.
    + apply elem_of_cons in Hin as [-> | Hin].
      * destruct (upper_choice x z) as [-> | ->]; [left | right; left].
      * right. right. exact Hin.
    + intros y Hy.
      assert (Hm : (Normalization.upper x z
                    <= foldl Normalization.upper (Normalization.upper x z) rest)%Q)
        by (apply Hle; left).
      apply elem_of_cons in Hy as [Hy | Hy].
      * subst y. exact (Qle_trans _ _ _ (proj1 (upper_ge x z)) Hm).
      * apply elem_of_cons in Hy as [Hy | Hy].
        -- subst y. exact (Qle_trans _ _ _ (proj2 (upper_ge x z)) Hm).
        -- apply Hle. right. exact Hy.
Qed.

(** A non-empty list has a least and a greatest element, and [least] and
    [greatest] find them. *)
Lemma least_greatest_spec (l : list Q) (x : Q) :
  x ∈ l ->
  exists lo hi,
    Normalization.least l = Some lo /\ Normalization.greatest l = Some hi /\
    lo ∈ l /\ hi ∈ l /\
    forall y, y ∈ l -> (lo <= y)%Q /\ (y <= hi)%Q.
Proof.
  destruct l as [| a rest]; intros Hx; [inversion Hx |].
  destruct (foldl_lower_spec rest a) as [Hlo Hle].
  destruct (foldl_upper_spec rest a) as [Hhi Hge].
  exists (foldl Normalization.lower a rest), (foldl Normalization.upper a rest).
  repeat split; auto.
Qed.

(** A channel that holds a value is counted. *)
Lemma channel_with_values_is_counted (sims : list simulation) (ch : nat) (x : Q) :
  x ∈ Normalization.channel_values sims ch -> (ch < Normalization.channel_count sims)%nat.
Proof.
  unfold Normalization.channel_values, Normalization.channel_count.
  intros Hx.
  apply list_elem_of_bind in Hx as (sim & Hx & Hsim).
  apply list_elem_of_bind in Hx as (snap & Hx & Hsnap).
  destruct (snap !! ch) as [g |] eqn:Hg; [| inversion Hx].
  apply lookup_lt_Some in Hg.
  assert (Hlen : length snap ∈ (sim0 ← sims; snap0 ← sim0; [length snap0])).
  { apply list_elem_of_bind. exists sim. split; [| exact Hsim].
    apply list_elem_of_bind. exists snap. split; [left | exact Hsnap]. }
  apply max_list_elem_of_le in Hlen.
  exact (Nat.lt_le_trans _ _ _ Hg Hlen).
Qed.

Lemma statistics_channel_min (sims : list simulation) (ch : nat) (lo : Q) :
  (ch < Normalization.channel_count sims)%nat ->
  Normalization.least (Normalization.channel_values sims ch) = Some lo ->
  Normalization.channel_min (Normalization.statistics sims) ch = Some lo.
Proof.
  intros Hch Hlo. unfold Normalization.channel_min, Normalization.statistics. cbn.
  rewrite list_lookup_fmap, lookup_seq_lt by exact Hch. cbn. rewrite Hlo. reflexivity.
Qed.

Lemma statistics_channel_max (sims : list simulation) (ch : nat) (hi : Q) :
  (ch < Normalization.channel_count sims)%nat ->
  Normalization.greatest (Normalization.channel_values sims ch) = Some hi ->
  Normalization.channel_max (Normalization.statistics sims) ch = Some hi.
Proof.
  intros Hch Hhi. unfold Normalization.channel_max, Normalization.statistics. cbn.
  rewrite list_lookup_fmap, lookup_seq_lt by exact Hch. cbn. rewrite Hhi. reflexivity.
Qed.

Lemma read_data_dirs_total (fs : gmap string file) (dirs : list path) :
  (forall d, d ∈ dirs -> is_Some (Normalization.read_data_dir fs d)) ->
  exists sims,
    Normalization.read_data_dirs fs dirs = Some sims /\
    forall sim, sim ∈ sims <->
      exists d stored, d ∈ dirs /\ Normalization.read_data_dir fs d = Some stored /\ sim ∈ stored.
Proof.
  intros Hdirs. unfold Normalization.read_data_dirs.
  assert (Hsome : is_Some (mapM (Normalization.read_data_dir fs) dirs)).
  { apply mapM_is_Some. apply Forall_forall. intros d Hd. apply Hdirs. exact Hd. }
  destruct Hsome as [groups Hgroups]. rewrite Hgroups. cbn.
  exists (mjoin groups). split; [reflexivity |].
  apply mapM_Some in Hgroups.
  intros sim. rewrite list_elem_of_join. split.
  - intros (stored & Hsim & Hstored).
    apply list_elem_of_lookup in Hstored as (i & Hi).
    destruct (Forall2_lookup_r _ _ _ _ _ Hgroups Hi) as (d & Hd & Hread).
    exists d, stored. repeat split; auto.
    apply list_elem_of_lookup. eauto.
  - intros (d & stored & Hd & Hread & Hsim).
    apply list_elem_of_lookup in Hd as (i & Hi).
    destruct (Forall2_lookup_l _ _ _ _ _ Hgroups Hi) as (stored' & Hs & Hread').
    rewrite Hread in Hread'. injection Hread' as <-.
    exists stored. split; [exact Hsim |]. apply list_elem_of_lookup. eauto.
Qed.

(** C1: for every list of data directories (each holding simulations) and
    every output path, [compute_min_max] returns, and the file system it
    leaves has at the output path a JSON document that gives, for every
    channel with data, the least and the greatest value the channel takes
    over all simulations of all the directories; no other file changes. *)
Theorem compute_min_max_writes_channel_statistics :
  forall (data_dirs : list path) (output_file : path) (fs : gmap string file),
    (forall d, d ∈ data_dirs -> is_Some (Normalization.read_data_dir fs d)) ->
    exists sims fs' doc,
      Normalization.compute_min_max data_dirs output_file fs = Some fs' /\
      fs' !! path_str output_file = Some (JsonFile doc) /\
      (forall p, p ≠ path_str output_file -> fs' !! p = fs !! p) /\
      (forall sim, sim ∈ sims <->
         exists d stored,
           d ∈ data_dirs /\ Normalization.read_data_dir fs d = Some stored /\ sim ∈ stored) /\
      forall ch x,
        x ∈ Normalization.channel_values sims ch ->
        exists lo hi,
          Normalization.channel_min doc ch = Some lo /\
          Normalization.channel_max doc ch = Some hi /\
          lo ∈ Normalization.channel_values sims ch /\
          hi ∈ Normalization.channel_values sims ch /\
          forall y, y ∈ Normalization.channel_values sims ch -> (lo <= y)%Q /\ (y <= hi)%Q.
Proof.
  intros data_dirs output_file fs Hdirs.
  destruct (read_data_dirs_total fs data_dirs Hdirs) as (sims & Hread & Hsims).
  exists sims, (<[path_str output_file := JsonFile (Normalization.statistics sims)]> fs),
    (Normalization.statistics sims).
  split; [unfold Normalization.compute_min_max; rewrite Hread; reflexivity |].
  split; [apply lookup_insert_eq |].
  split; [intros p Hp; apply lookup_insert_ne; congruence |].
  split; [exact Hsims |].
  intros ch x Hx.
  destruct (least_greatest_spec _ x Hx) as (lo & hi & Hlo & Hhi & Hlo_in & Hhi_in & Hbounds).
  pose proof (channel_with_values_is_counted sims ch x Hx) as Hch.
  exists lo, hi. repeat split; auto using statistics_channel_min, statistics_channel_max;
    apply Hbounds; assumption.
Qed.

Lemma compute_min_max_writes_channel_statistics_witness :
  exists sims fs' doc,
    Normalization.compute_min_max [train_dir; test_dir] min_max_file demo_files = Some fs' /\
    fs' !! path_str min_max_file = Some (JsonFile doc) /\
    (forall p, p ≠ path_str min_max_file -> fs' !! p = demo_files !! p) /\
    (forall sim, sim ∈ sims <->
       exists d stored,
         d ∈ [train_dir; test_dir] /\
         Normalization.read_data_dir demo_files d = Some stored /\ sim ∈ stored) /\
    forall ch x,
      x ∈ Normalization.channel_values sims ch ->
      exists lo hi,
        Normalization.channel_min doc ch = Some lo /\
        Normalization.channel_max doc ch = Some hi /\
        lo ∈ Normalization.channel_values sims ch /\
        hi ∈ Normalization.channel_values sims ch /\
        forall y, y ∈ Normalization.channel_values sims ch -> (lo <= y)%Q /\ (y <= hi)%Q.
Proof.
  apply (compute_min_max_writes_channel_statistics [train_dir; test_dir] min_max_file demo_files).
  intros d Hd.
  apply elem_of_cons in Hd as [-> | Hd]; [eexists; vm_compute; reflexivity |].
  apply list_elem_of_singleton in Hd as ->. eexists; vm_compute; reflexivity.
Defined.

(** The document written for the demo files: pressure ranges over
    [0, 7], the Reynolds number over [10, 20], u over [-3, 2] and v over
    [0, 4]. *)
Example demo_statistics :
  (fs' ← Normalization.compute_min_max [train_dir; test_dir] min_max_file demo_files;
   fs' !! path_str min_max_file) =
  Some (JsonFile (JObject
    [("channel_min", JArray [JNumber 0; JNumber 10; JNumber (-3); JNumber 0]);
     ("channel_max", JArray [JNumber 7; JNumber 20; JNumber 2; JNumber 4])])).
Proof. vm_compute. reflexivity. Qed.

(** *** Loaders *)

Lemma chunks_spec {A} (n : nat) :
  (0 < n)%nat ->
  forall (fuel : nat) (l : list A),
    (length l <= fuel)%nat ->
    mjoin (Loader.chunks fuel n l) = l /\
    Forall (fun g => g ≠ [] /\ (length g <= n)%nat) (Loader.chunks fuel n l).
Proof.
  intros Hn. induction fuel as [| fuel IH]; intros l Hlen.
  - destruct l; [| simpl in Hlen; lia]. split; [reflexivity | constructor].
  - destruct l as [| x l]; [split; [reflexivity | constructor] |].
    cbn [Loader.chunks].
    destruct (IH (drop n (x :: l))) as [Hjoin Hall].
    { rewrite length_drop. simpl in *. lia. }
    split.
    + change (take n (x :: l) ++ mjoin (Loader.chunks fuel n (drop n (x :: l))) = x :: l).
      rewrite Hjoin. apply take_drop.
    + constructor; [| exact Hall]. split.
      * destruct n; [lia | discriminate].
      * rewrite length_take. lia.
Qed.

Lemma loader_batches (dataset : list Loader.sample) (batch_size : nat) :
  (0 < batch_size)%nat ->
  exists groups,
    Loader.DataLoader dataset batch_size = Loader.custom_collate_fn <$> groups /\
    mjoin groups = dataset /\
    Forall (fun g => g ≠ [] /\ (length g <= batch_size)%nat) groups.
Proof.
  intros Hn. exists (Loader.chunks (length dataset) batch_size dataset).
  destruct (chunks_spec batch_size Hn (length dataset) dataset (le_n _)) as [Hjoin Hall].
  destruct batch_size; [lia |]. auto.
Qed.

(** The [i]-th of blocks of one length laid end to end. *)
Lemma nth_block {A B} (f : A -> list B) (n : nat) (l : list A) :
  (forall x, x ∈ l -> length (f x) = n) ->
  forall i x, l !! i = Some x -> take n (drop (i * n) (l ≫= f)) = f x.
Proof.
  induction l as [| a l IH]; intros Hlen i x Hi; [discriminate Hi |].
  rewrite bind_cons. destruct i as [| i].
  - injection Hi as ->. cbn [Nat.mul drop].
    apply take_app_length'. symmetry. apply Hlen. left.
  - cbn [Nat.mul]. rewrite drop_app_add' by (symmetry; apply Hlen; left).
    apply IH; [| exact Hi]. intros y Hy. apply Hlen. right. exact Hy.
Qed.

Lemma block_length {A B} (f : A -> list B) (n : nat) (l : list A) :
  (forall x, x ∈ l -> length (f x) = n) -> length (l ≫= f) = (length l * n)%nat.
Proof.
  induction l as [| a l IH]; intros Hlen; [reflexivity |].
  rewrite bind_cons, length_app, IH.
  - rewrite (Hlen a) by left. reflexivity.
  - intros y Hy. apply Hlen. right. exact Hy.
Qed.

Lemma same_shape_spec (t : tensor) (ts : list tensor) :
  Loader.same_shape t ts = true -> forall x, x ∈ ts -> shape x = shape t.
Proof.
  unfold Loader.same_shape. rewrite forallb_forall. intros H x Hx.
  apply list_elem_of_In in Hx. apply H in Hx. apply bool_decide_eq_true in Hx. exact Hx.
Qed.

Lemma well_formed_spec (t : tensor) :
  Loader.well_formed t = true -> length (entries t) = Viz.cells (shape t).
Proof. unfold Loader.well_formed. apply Nat.eqb_eq. Qed.

(** A stack holds its tensors as its slices along the first axis. *)
Lemma stack_select (ts : list tensor) (t : tensor) :
  Loader.stack ts = Some t ->
  forallb Loader.well_formed ts = true ->
  exists sh,
    shape t = length ts :: sh /\
    forall i x, ts !! i = Some x -> shape x = sh /\ Viz.select i t = Some x.
Proof.
  unfold Loader.stack. destruct ts as [| t0 rest] eqn:Hts; [discriminate |].
  rewrite <- Hts. destruct (Loader.same_shape t0 ts) eqn:Hsame; [| discriminate].
  intros [= <-] Hwf. exists (shape t0). split; [reflexivity |].
  intros i x Hi.
  assert (Hx : x ∈ ts) by (apply list_elem_of_lookup; eauto).
  pose proof (same_shape_spec _ _ Hsame x Hx) as Hsh. split; [exact Hsh |].
  unfold Viz.select. cbn [shape entries].
  destruct (decide (i < length ts)%nat) as [_ | Hn];
    [| destruct Hn; apply lookup_lt_Some in Hi; exact Hi].
  rewrite (nth_block entries (Viz.cells (shape t0)) ts) with (x := x); [| | exact Hi].
  - rewrite <- Hsh. destruct x. reflexivity.
  - intros y Hy. rewrite <- (same_shape_spec _ _ Hsame y Hy).
    apply well_formed_spec. rewrite forallb_forall in Hwf.
    apply Hwf, list_elem_of_In, Hy.
Qed.

Lemma slice_length {A} (es : list A) (steps c step : nat) :
  length es = (steps * c)%nat -> (step < steps)%nat ->
  length (take c (drop (step * c) es)) = c.
Proof.
  intros Hlen Hstep. rewrite length_take, length_drop, Hlen. nia.
Qed.

(** A stack along the second axis holds, at each index of the first axis,
    the slices of its tensors at that index. *)
Lemma stack_second_select (ts : list tensor) (t : tensor) :
  Loader.stack_second ts = Some t ->
  forallb Loader.well_formed ts = true ->
  exists steps sh,
    shape t = steps :: length ts :: sh /\
    forall i x, ts !! i = Some x ->
      shape x = steps :: sh /\
      forall step, (a ← Viz.select step t; Viz.select i a) = Viz.select step x.
Proof.
  unfold Loader.stack_second. destruct ts as [| t0 rest] eqn:Hts; [discriminate |].
  rewrite <- Hts. destruct (shape t0) as [| steps sh] eqn:Hsh0; [discriminate |].
  destruct (Loader.same_shape t0 ts) eqn:Hsame; [| discriminate].
  intros [= <-] Hwf. exists steps, sh. split; [reflexivity |].
  intros i x Hi.
  assert (Hx : x ∈ ts) by (apply list_elem_of_lookup; eauto).
  assert (Hshape : forall y, y ∈ ts -> shape y = steps :: sh).
  { intros y Hy. rewrite (same_shape_spec _ _ Hsame y Hy). exact Hsh0. }
  assert (Hlen : forall y, y ∈ ts -> length (entries y) = (steps * Viz.cells sh)%nat).
  { intros y Hy. rewrite forallb_forall in Hwf.
    rewrite (well_formed_spec y (Hwf y (proj1 (list_elem_of_In _ _) Hy))), (Hshape y Hy).
    reflexivity. }
  split; [exact (Hshape x Hx) |].
  intros step.
  assert (Hright : Viz.select step x =
                   if decide (step < steps)%nat
                   then Some (Tensor sh (take (Viz.cells sh)
                                              (drop (step * Viz.cells sh) (entries x))))
                   else None).
  { unfold Viz.select. rewrite (Hshape x Hx). reflexivity. }
  rewrite Hright.
  match goal with
  | |- context [Viz.select step (Tensor ?s ?es)] =>
      change (Viz.select step (Tensor s es))
        with (if decide (step < steps)%nat
              then Some (Tensor (length ts :: sh)
                           (take (Viz.cells (length ts :: sh))
                                 (drop (step * Viz.cells (length ts :: sh)) es)))
              else None)
  end.
  destruct (decide (step < steps)%nat) as [Hstep | _]; [| reflexivity].
  cbn [mbind option_bind]. unfold Viz.select. cbn [shape entries].
  destruct (decide (i < length ts)%nat) as [_ | Hn];
    [| destruct Hn; apply lookup_lt_Some in Hi; exact Hi].
  f_equal. f_equal.
  change (Viz.cells (length ts :: sh)) with (length ts * Viz.cells sh)%nat.
  set (slice := fun (step : nat) (y : tensor) =>
                  take (Viz.cells sh) (drop (step * Viz.cells sh) (entries y))).
  assert (Hslice : forall s y, (s < steps)%nat -> y ∈ ts ->
                               length (slice s y) = Viz.cells sh).
  { intros s y Hs Hy. apply (slice_length _ steps); [apply Hlen, Hy | exact Hs]. }
  rewrite (nth_block (fun s => ts ≫= slice s) (length ts * Viz.cells sh) (seq 0 steps))
    with (x := step).
  - apply (nth_block (slice step) (Viz.cells sh) ts); [| exact Hi].
    intros y Hy. apply Hslice; assumption.
  - intros s Hs. apply elem_of_seq in Hs.
    apply block_length. intros y Hy. apply Hslice; [lia | exact Hy].
  - apply lookup_seq. lia.
Qed.

Lemma forallb_fmap {A B} (f : A -> B) (p : B -> bool) (l : list A) :
  forallb p (f <$> l) = forallb (fun x => p (f x)) l.
Proof. induction l as [| a l IH]; [reflexivity |]. cbn. rewrite IH. reflexivity. Qed.

Lemma samples_ok_fields (samples : list Loader.sample) :
  forallb Loader.sample_ok samples = true ->
  forallb Loader.well_formed (Loader.initial_condition <$> samples) = true /\
  forallb Loader.well_formed (Loader.target_states <$> samples) = true.
Proof.
  intros H. rewrite !forallb_fmap. rewrite forallb_forall in H.
  split; apply forallb_forall; intros s Hs; specialize (H s Hs);
    unfold Loader.sample_ok in H; apply andb_prop in H as [H1 H2]; assumption.
Qed.

Lemma same_shape_intro (t : tensor) (ts : list tensor) :
  (forall x, x ∈ ts -> shape x = shape t) -> Loader.same_shape t ts = true.
Proof.
  intros H. unfold Loader.same_shape. apply forallb_forall. intros x Hx.
  apply bool_decide_eq_true, H, list_elem_of_In, Hx.
Qed.

Lemma stack_is_Some (ts : list tensor) (t : tensor) :
  head ts = Some t -> (forall x, x ∈ ts -> shape x = shape t) -> is_Some (Loader.stack ts).
Proof.
  destruct ts as [| t0 rest]; [discriminate |].
  intros [= ->] H. unfold Loader.stack.
  rewrite (same_shape_intro _ _ H). eauto.
Qed.

Lemma stack_second_is_Some (ts : list tensor) (t : tensor) :
  head ts = Some t -> shape t ≠ [] -> (forall x, x ∈ ts -> shape x = shape t) ->
  is_Some (Loader.stack_second ts).
Proof.
  destruct ts as [| t0 rest]; [discriminate |].
  intros [= ->] Hne H. unfold Loader.stack_second.
  rewrite (same_shape_intro _ _ H).
  destruct (shape t) as [| steps sh]; [contradiction | eauto].
Qed.

Lemma uniform_spec (dataset : list Loader.sample) :
  Loader.uniform dataset = true ->
  forall s1 s2, s1 ∈ dataset -> s2 ∈ dataset ->
    shape (Loader.initial_condition s1) = shape (Loader.initial_condition s2) /\
    shape (Loader.target_states s1) = shape (Loader.target_states s2) /\
    shape (Loader.target_states s1) ≠ [].
Proof.
  destruct dataset as [| d rest] eqn:Hd; [intros _ s1 s2 H; inversion H |].
  unfold Loader.uniform. rewrite <- Hd.
  intros Hu. apply andb_prop in Hu as [Hu Hsteps]. apply andb_prop in Hu as [Hic Htg].
  assert (Hics : forall s, s ∈ dataset ->
                 shape (Loader.initial_condition s) = shape (Loader.initial_condition d)).
  { intros s Hs. apply (same_shape_spec _ _ Hic). apply list_elem_of_fmap. eauto. }
  assert (Htgs : forall s, s ∈ dataset ->
                 shape (Loader.target_states s) = shape (Loader.target_states d)).
  { intros s Hs. apply (same_shape_spec _ _ Htg). apply list_elem_of_fmap. eauto. }
  intros s1 s2 H1 H2.
  rewrite (Hics s1 H1), (Hics s2 H2), (Htgs s1 H1), (Htgs s2 H2).
  split; [reflexivity |]. split; [reflexivity |].
  intros Hnil. rewrite Hnil in Hsteps. discriminate Hsteps.
Qed.

(** Groups of a uniform dataset collate without an exception. *)
Lemma uniform_group_collates (dataset group : list Loader.sample) :
  Loader.uniform dataset = true ->
  group ≠ [] -> (forall s, s ∈ group -> s ∈ dataset) ->
  is_Some (Loader.custom_collate_fn group).
Proof.
  intros Hu Hne Hsub. destruct group as [| g rest] eqn:Hg; [contradiction |].
  rewrite <- Hg in *.
  assert (Hhead : head group = Some g) by (rewrite Hg; reflexivity).
  assert (Hgd : g ∈ dataset) by (apply Hsub; rewrite Hg; left).
  pose proof (uniform_spec dataset Hu) as Hshapes.
  destruct (stack_is_Some (Loader.initial_condition <$> group) (Loader.initial_condition g))
    as [ic Hic].
  { rewrite Hg. reflexivity. }
  { intros x Hx. apply list_elem_of_fmap in Hx as (s & -> & Hs).
    apply (Hshapes s g (Hsub s Hs) Hgd). }
  destruct (stack_second_is_Some (Loader.target_states <$> group) (Loader.target_states g))
    as [tgt Htgt].
  { rewrite Hg. reflexivity. }
  { apply (Hshapes g g Hgd Hgd). }
  { intros x Hx. apply list_elem_of_fmap in Hx as (s & -> & Hs).
    apply (Hshapes s g (Hsub s Hs) Hgd). }
  unfold Loader.custom_collate_fn. rewrite Hhead. cbn [mbind option_bind].
  rewrite Hic. cbn [mbind option_bind]. rewrite Htgt. cbn [mbind option_bind]. eauto.
Qed.

(** What a collated batch holds. *)
Lemma custom_collate_fn_spec (samples : list Loader.sample) (batch : value) :
  Loader.custom_collate_fn samples = Some batch ->
  forallb Loader.sample_ok samples = true ->
  exists first ic tgt,
    head samples = Some first /\
    batch = VTuple [VTensor ic; VTensor (Loader.start_time first);
                    VTensor (Loader.end_time first); VTensor tgt] /\
    head (shape ic) = Some (length samples) /\
    shape tgt !! 1%nat = Some (length samples) /\
    (forall i s, samples !! i = Some s ->
       Viz.select i ic = Some (Loader.initial_condition s)) /\
    (forall i s step, samples !! i = Some s ->
       (a ← Viz.select step tgt; Viz.select i a) = Viz.select step (Loader.target_states s)).
Proof.
  intros Hc Hok. unfold Loader.custom_collate_fn in Hc.
  destruct (head samples) as [first |] eqn:Hfirst; [| discriminate Hc].
  cbn [mbind option_bind] in Hc.
  destruct (Loader.stack (Loader.initial_condition <$> samples)) as [ic |] eqn:Hic;
    [| discriminate Hc].
  cbn [mbind option_bind] in Hc.
  destruct (Loader.stack_second (Loader.target_states <$> samples)) as [tgt |] eqn:Htg;
    [| discriminate Hc].
  cbn [mbind option_bind] in Hc. injection Hc as <-.
  destruct (samples_ok_fields samples Hok) as [Hwi Hwt].
  destruct (stack_select _ _ Hic Hwi) as (sh & Hshape & Hsel).
  destruct (stack_second_select _ _ Htg Hwt) as (steps & sh' & Hshape' & Hsel').
  rewrite length_fmap in Hshape, Hshape'.
  exists first, ic, tgt.
  split; [reflexivity |]. split; [reflexivity |].
  split; [rewrite Hshape; reflexivity |]. split; [rewrite Hshape'; reflexivity |].
  split.
  - intros i s Hi. apply (Hsel i). rewrite list_lookup_fmap, Hi. reflexivity.
  - intros i s step Hi. apply (Hsel' i). rewrite list_lookup_fmap, Hi. reflexivity.
Qed.

(** C2: every batch of a loader over a [GenericPhysicsDataset] is a tuple
    of four components, in order the initial conditions, the start time,
    the end time and the ground-truth targets of a non-empty group of at
    most [batch_size] samples of the dataset: slice [i] of the first
    component is the initial condition of the group's [i]-th sample, the
    second and third are the times of its first sample, and slice [i] of
    time step [step] of the fourth is time step [step] of the targets of
    the [i]-th sample; the notebook's unpacking
    [ic, t0, t1, target = batch] succeeds on it and binds the four in that
    order.  The groups follow dataset order and cover the dataset, and no
    batch of a dataset of uniform shapes fails.  In every run of the
    notebook the four arguments of [visualize_channels] are the four
    components, in order, of the first batch of the training loader, and
    the ground truth passed on is the fourth component of the first batch
    of the ground-truth loader. *)
Theorem loader_batches_have_four_components :
  (forall (dataset : list Loader.sample) (batch_size : nat) (batch : value),
     forallb Loader.sample_ok dataset = true ->
     Some batch ∈ Loader.DataLoader dataset batch_size ->
     exists samples first ic tgt,
       samples ≠ [] /\ (length samples <= batch_size)%nat /\
       (forall s, s ∈ samples -> s ∈ dataset) /\
       head samples = Some first /\
       batch = VTuple [VTensor ic; VTensor (Loader.start_time first);
                       VTensor (Loader.end_time first); VTensor tgt] /\
       unpack4 batch =
         Ret (VTensor ic, VTensor (Loader.start_time first),
              VTensor (Loader.end_time first), VTensor tgt) /\
       head (shape ic) = Some (length samples) /\
       shape tgt !! 1%nat = Some (length samples) /\
       (forall i s, samples !! i = Some s ->
          Viz.select i ic = Some (Loader.initial_condition s)) /\
       (forall i s step, samples !! i = Some s ->
          (a ← Viz.select step tgt; Viz.select i a) =
          Viz.select step (Loader.target_states s))) /\
  (forall (dataset : list Loader.sample) (batch_size : nat),
     (0 < batch_size)%nat ->
     Loader.uniform dataset = true ->
     exists groups,
       Loader.DataLoader dataset batch_size = Loader.custom_collate_fn <$> groups /\
       mjoin groups = dataset /\
       Forall (fun g => is_Some (Loader.custom_collate_fn g)) groups) /\
  (forall W (h : handler W) (w : W) (e : entry),
     In e (run h w) ->
     (target (made e) = visualize_channels ->
        exists loader batch ic t0 t1 tgt,
          is_train_loader (within (run h w)) loader /\
          first_batch (within (run h w)) loader batch /\
          unpacked (within (run h w)) batch [ic; t0; t1; tgt] /\
          args (made e) = [ic; t0; t1; tgt]) /\
     (target (made e) = save_gifs_with_ground_truth ->
        exists ground_truth,
          keyword (made e) "ground_truth" = Some ground_truth /\
          is_ground_truth (within (run h w)) ground_truth)).
Proof.
  split; [| split].
  - intros dataset batch_size batch Hok Hin.
    destruct batch_size as [| n]; [inversion Hin |].
    destruct (loader_batches dataset (S n) ltac:(lia)) as (groups & Heq & Hjoin & Hall).
    rewrite Heq in Hin. apply list_elem_of_fmap in Hin as (samples & Hc & Hs).
    pose proof (proj1 (Forall_forall _ _) Hall samples Hs) as [Hne Hlen].
    assert (Hsub : forall s, s ∈ samples -> s ∈ dataset).
    { intros s Hsin. rewrite <- Hjoin. apply list_elem_of_join. eauto. }
    assert (Hok' : forallb Loader.sample_ok samples = true).
    { rewrite forallb_forall in Hok. apply forallb_forall. intros s Hsin.
      apply Hok, list_elem_of_In, Hsub, list_elem_of_In, Hsin. }
    destruct (custom_collate_fn_spec samples batch (eq_sym Hc) Hok')
      as (first & ic & tgt & Hfirst & -> & Hb & Ht & Hic & Htgt).
    exists samples, first, ic, tgt.
    split; [exact Hne |]. split; [exact Hlen |]. split; [exact Hsub |].
    split; [exact Hfirst |]. split; [reflexivity |]. split; [reflexivity |].
    split; [exact Hb |]. split; [exact Ht |]. split; [exact Hic | exact Htgt].
  - intros dataset batch_size Hn Hu.
    destruct (loader_batches dataset batch_size Hn) as (groups & Heq & Hjoin & Hall).
    exists groups. split; [exact Heq |]. split; [exact Hjoin |].
    apply Forall_forall. intros g Hg.
    pose proof (proj1 (Forall_forall _ _) Hall g Hg) as [Hne _].
    apply (uniform_group_collates dataset g Hu Hne).
    intros s Hs. rewrite <- Hjoin. apply list_elem_of_join. eauto.
  - intros W h w e Hin.
    destruct (run_meets_spec h w e Hin)
      as (_ & _ & _ & Hviz & _ & _ & _ & _ & _ & _ & _ & _ & Hgifs).
    split.
    + intros Ht.
      destruct (Hviz Ht) as (loader & batch & ic & t0 & t1 & tgt & Ha & _ & Hitems & Hb & Hl).
      exists loader, batch, ic, t0, t1, tgt. auto.
    + intros Ht. destruct (Hgifs Ht) as (p & g & _ & Hk & _ & Hg).
      exists g. split; [unfold keyword; rewrite Hk; reflexivity | exact Hg].
Qed.

Lemma loader_batches_have_four_components_witness :
  (exists samples first ic tgt,
     samples ≠ [] /\ (length samples <= 8)%nat /\
     (forall s, s ∈ samples -> s ∈ demo_samples) /\
     head samples = Some first /\
     demo_collated = VTuple [VTensor ic; VTensor (Loader.start_time first);
                             VTensor (Loader.end_time first); VTensor tgt] /\
     unpack4 demo_collated =
       Ret (VTensor ic, VTensor (Loader.start_time first),
            VTensor (Loader.end_time first), VTensor tgt) /\
     head (shape ic) = Some (length samples) /\
     shape tgt !! 1%nat = Some (length samples) /\
     (forall i s, samples !! i = Some s ->
        Viz.select i ic = Some (Loader.initial_condition s)) /\
     (forall i s step, samples !! i = Some s ->
        (a ← Viz.select step tgt; Viz.select i a) =
        Viz.select step (Loader.target_states s))) /\
  (exists groups,
     Loader.DataLoader demo_samples 8 = Loader.custom_collate_fn <$> groups /\
     mjoin groups = demo_samples /\
     Forall (fun g => is_Some (Loader.custom_collate_fn g)) groups) /\
  (exists loader batch ic t0 t1 tgt,
     is_train_loader (within (run demo_env 0%nat)) loader /\
     first_batch (within (run demo_env 0%nat)) loader batch /\
     unpacked (within (run demo_env 0%nat)) batch [ic; t0; t1; tgt] /\
     args (made (demo_entry 5)) = [ic; t0; t1; tgt]) /\
  (exists ground_truth,
     keyword (made (demo_entry 51)) "ground_truth" = Some ground_truth /\
     is_ground_truth (within (run demo_env 0%nat)) ground_truth).
Proof.
  destruct loader_batches_have_four_components as (Hbatch & Hgroups & Hrun).
  split; [| split; [| split]].
  - apply (Hbatch demo_samples 8%nat demo_collated).
    + vm_compute. reflexivity.
    + vm_compute. left.
  - apply (Hgroups demo_samples 8%nat).
    + lia.
    + vm_compute. reflexivity.
  - apply (Hrun nat demo_env 0%nat (demo_entry 5)); [demo_in | vm_compute; reflexivity].
  - apply (Hrun nat demo_env 0%nat (demo_entry 51)); [demo_in | vm_compute; reflexivity].
Defined.

(** The single batch of the demo samples, and the field the comparison
    GIFs would read at time step 1 of sample 1, channel 2. *)
Example demo_loader_batch :
  Loader.DataLoader demo_samples 8 = [Some demo_collated] /\
  (exists ic t0 t1 tgt,
     demo_collated = VTuple [ic; t0; t1; VTensor tgt] /\
     Viz.field_at tgt 1 1 2 = Some (Tensor [1%nat] [63%Q])).
Proof.
  split; [vm_compute; reflexivity |].
  eexists _, _, _, _. split; [reflexivity | vm_compute; reflexivity].
Qed.

(** *** Loading weights *)

Lemma load_model_weights_loads (id : nat) (net : Load.network) (state : state_dict)
      (weights_path : path) (dev : value) (w : Load.world) :
  Load.objects w !! id = Some net ->
  Load.files w !! path_str weights_path = Some (Checkpoint state) ->
  exists w',
    Load.load_model_weights (VObj id) weights_path dev w = (Returned (VObj id), w') /\
    Load.objects w' !! id = Some (Load.Network state dev) /\
    (forall j, j ≠ id -> Load.objects w' !! j = Load.objects w !! j) /\
    Load.files w' = Load.files w.
Proof.
  intros Hobj Hfile. unfold Load.load_model_weights. rewrite Hobj, Hfile.
  eexists. split; [reflexivity |]. cbn. split; [apply lookup_insert_eq |].
  split; [| reflexivity]. intros j Hj. apply lookup_insert_ne. congruence.
Qed.

(** C6: in every run of the notebook, every call to [load_model_weights]
    passes exactly the model, the checkpoint path [train_dir.parent /
    "model.pth"] and the device, and what it returns is the model that is
    put in evaluation mode and applied.  The function, given a model and an
    existing checkpoint, returns that same model, whose parameters are now
    those of the checkpoint, placed on the device; nothing else changes. *)
Theorem load_model_weights_call_and_effect :
  path_str model_weights_path = "../data/navier_stokes/model.pth" /\
  (forall W (h : handler W) (w : W) (e : entry),
     In e (run h w) ->
     (target (made e) = load_model_weights ->
        exists m dev,
          args (made e) = [m; VPath model_weights_path; dev] /\ kwargs (made e) = [] /\
          is_model (within (run h w)) m /\ is_device (within (run h w)) dev) /\
     (forall m, target (made e) = Method m "eval" \/ target (made e) = Apply m ->
        is_loaded_model (within (run h w)) m)) /\
  (forall (id : nat) (net : Load.network) (state : state_dict) (weights_path : path)
          (dev : value) (w : Load.world),
     Load.objects w !! id = Some net ->
     Load.files w !! path_str weights_path = Some (Checkpoint state) ->
     exists w',
       Load.load_model_weights (VObj id) weights_path dev w = (Returned (VObj id), w') /\
       Load.objects w' !! id = Some (Load.Network state dev) /\
       (forall j, j ≠ id -> Load.objects w' !! j = Load.objects w !! j) /\
       Load.files w' = Load.files w).
Proof.
  split; [reflexivity |]. split; [| exact load_model_weights_loads].
  intros W h w e Hin.
  destruct (run_meets_spec h w e Hin)
    as (_ & _ & _ & _ & _ & _ & _ & _ & _ & Hload & Heval & Happly & _).
  split; [exact Hload |].
  intros m [Ht | Ht]; [exact (Heval m Ht) | exact (proj1 (Happly m Ht))].
Qed.

Lemma load_model_weights_call_and_effect_witness :
  (exists m dev,
     args (made (demo_entry 25)) = [m; VPath model_weights_path; dev] /\
     kwargs (made (demo_entry 25)) = [] /\
     is_model (within (run demo_env 0%nat)) m /\
     is_device (within (run demo_env 0%nat)) dev) /\
  is_loaded_model (within (run demo_env 0%nat)) (VObj 12) /\
  (exists w',
     Load.load_model_weights (VObj 12) model_weights_path (VStr "cuda") demo_world
       = (Returned (VObj 12), w') /\
     Load.objects w' !! 12%nat = Some (Load.Network demo_state (VStr "cuda")) /\
     (forall j, j ≠ 12%nat -> Load.objects w' !! j = Load.objects demo_world !! j) /\
     Load.files w' = Load.files demo_world).
Proof.
  destruct load_model_weights_call_and_effect as (_ & Hrun & Hload).
  split; [| split].
  - apply (Hrun nat demo_env 0%nat (demo_entry 25)); [demo_in | vm_compute; reflexivity].
  - apply (Hrun nat demo_env 0%nat (demo_entry 30)); [demo_in | left; vm_compute; reflexivity].
  - apply (Hload 12%nat (Load.Network [] (VStr "cpu")) demo_state);
      vm_compute; reflexivity.
Defined.

(** *** Visualization *)

Lemma select_Some (t : tensor) (d : nat) (rest : list nat) (i : nat) :
  shape t = d :: rest -> (i < d)%nat ->
  exists t', Viz.select i t = Some t' /\ shape t' = rest.
Proof.
  intros Hs Hi. unfold Viz.select. rewrite Hs.
  destruct (decide (i < d)%nat); [| contradiction].
  eexists. split; reflexivity.
Qed.

Lemma field_at_Some (t : tensor) (T B C : nat) (rest : list nat) (step b ch : nat) :
  shape t = T :: B :: C :: rest ->
  (step < T)%nat -> (b < B)%nat -> (ch < C)%nat ->
  is_Some (Viz.field_at t step b ch).
Proof.
  intros Hs Hstep Hb Hch. unfold Viz.field_at.
  destruct (select_Some t T _ step Hs Hstep) as (t1 & -> & Hs1).
  destruct (select_Some t1 B _ b Hs1 Hb) as (t2 & H2 & Hs2).
  destruct (select_Some t2 C _ ch Hs2 Hch) as (t3 & H3 & _).
  cbn. rewrite H2. cbn. rewrite H3. eauto.
Qed.

Lemma comparison_frames_spec (predictions ground_truth : tensor)
      (T B C T' B' C' : nat) (rest rest' : list nat) (b ch : nat) :
  shape predictions = T :: B :: C :: rest ->
  shape ground_truth = T' :: B' :: C' :: rest' ->
  (T <= T')%nat -> (b < B)%nat -> (b < B')%nat -> (ch < C)%nat -> (ch < C')%nat ->
  exists shots,
    Viz.comparison_frames predictions ground_truth b ch = Some shots /\
    length shots = T /\
    forall step, (step < T)%nat ->
      exists p g,
        shots !! step = Some (p, g) /\
        Viz.field_at predictions step b ch = Some p /\
        Viz.field_at ground_truth step b ch = Some g.
Proof.
  intros Hp Hg HT Hb Hb' Hch Hch'. unfold Viz.comparison_frames.
  assert (Hsteps : Viz.steps predictions = T) by (unfold Viz.steps; rewrite Hp; reflexivity).
  rewrite Hsteps.
  set (shot := fun step : nat =>
         p ← Viz.field_at predictions step b ch;
         g ← Viz.field_at ground_truth step b ch;
         Some (p, g)).
  assert (Hsome : is_Some (mapM shot (seq 0 T))).
  { apply mapM_is_Some, Forall_seq. intros step Hstep. unfold shot. cbn.
    destruct (field_at_Some predictions T B C rest step b ch) as [p ->]; [auto | lia | auto .. |].
    destruct (field_at_Some ground_truth T' B' C' rest' step b ch) as [g ->];
      [auto | lia | auto .. |].
    cbn. eauto. }
  destruct Hsome as [shots Hshots]. exists shots. split; [exact Hshots |].
  apply mapM_Some in Hshots.
  split; [rewrite <- (Forall2_length _ _ _ Hshots); apply length_seq |].
  intros step Hstep.
  destruct (Forall2_lookup_l _ _ _ step step Hshots) as ([p g] & Hlook & Hshot).
  { apply lookup_seq. lia. }
  unfold shot in Hshot.
  destruct (Viz.field_at predictions step b ch) as [p' |]; [| discriminate Hshot].
  destruct (Viz.field_at ground_truth step b ch) as [g' |]; [| discriminate Hshot].
  cbn in Hshot. injection Hshot as <- <-. exists p', g'. auto.
Qed.

Lemma save_gifs_emits (predictions ground_truth : tensor)
      (names maps : list string) (filename_prefix : string) (pause : Q) (b : nat)
      (T B C T' B' C' : nat) (rest rest' : list nat) :
  shape predictions = T :: B :: C :: rest ->
  shape ground_truth = T' :: B' :: C' :: rest' ->
  (T <= T')%nat -> (b < B)%nat -> (b < B')%nat ->
  (length names <= C)%nat -> (length names <= C')%nat ->
  exists out,
    Viz.save_gifs_with_ground_truth predictions ground_truth names maps filename_prefix pause b
      = Some out /\
    length out = min (length names) (length maps) /\
    forall ch name cmap,
      names !! ch = Some name -> maps !! ch = Some cmap ->
      exists shots,
        out !! ch = Some (Viz.gif_name filename_prefix name,
                          GifFile (Animation cmap pause shots)) /\
        length shots = T /\
        forall step, (step < T)%nat ->
          exists p g,
            shots !! step = Some (p, g) /\
            Viz.field_at predictions step b ch = Some p /\
            Viz.field_at ground_truth step b ch = Some g.
Proof.
  intros Hp Hg HT Hb Hb' HC HC'. unfold Viz.save_gifs_with_ground_truth.
  set (emit := fun '(ch, (name, cmap)) =>
         shots ← Viz.comparison_frames predictions ground_truth b ch;
         Some (Viz.gif_name filename_prefix name, GifFile (Animation cmap pause shots))).
  set (jobs := zip (seq 0 (length names)) (zip names maps)).
  assert (Hjob : forall i ch name cmap, jobs !! i = Some (ch, (name, cmap)) ->
            ch = i /\ names !! i = Some name /\ maps !! i = Some cmap).
  { intros i ch name cmap Hi. unfold jobs in Hi.
    apply lookup_zip_with_Some in Hi as (x & y & Hxy & Hx & Hy).
    apply lookup_zip_with_Some in Hy as (n' & c' & -> & Hn & Hc).
    injection Hxy as -> -> ->. apply lookup_seq in Hx as [-> _]. auto. }
  assert (Hsome : is_Some (mapM emit jobs)).
  { apply mapM_is_Some, Forall_lookup. intros i [ch [name cmap]] Hi.
    destruct (Hjob _ _ _ _ Hi) as (-> & Hn & _). apply lookup_lt_Some in Hn.
    destruct (comparison_frames_spec predictions ground_truth T B C T' B' C' rest rest' b i)
      as (shots & Hshots & _); [auto | auto | auto | auto | auto | lia | lia |].
    cbn. rewrite Hshots. cbn. eauto. }
  destruct Hsome as [out Hout]. exists out. split; [exact Hout |].
  apply mapM_Some in Hout.
  split.
  { rewrite <- (Forall2_length _ _ _ Hout). unfold jobs.
    rewrite !length_zip, length_seq. lia. }
  intros ch name cmap Hn Hc.
  assert (Hi : jobs !! ch = Some (ch, (name, cmap))).
  { unfold jobs. apply lookup_zip_with_Some. exists ch, (name, cmap).
    split; [reflexivity |]. split.
    - apply lookup_seq. apply lookup_lt_Some in Hn. lia.
    - apply lookup_zip_with_Some. eauto. }
  destruct (Forall2_lookup_l _ _ _ _ _ Hout Hi) as (f & Hf & Hemit).
  apply lookup_lt_Some in Hn as Hlt.
  destruct (comparison_frames_spec predictions ground_truth T B C T' B' C' rest rest' b ch)
    as (shots & Hshots & Hlen & Hsteps); [auto | auto | auto | auto | auto | lia | lia |].
  cbn in Hemit. rewrite Hshots in Hemit. cbn in Hemit. injection Hemit as <-.
  exists shots. auto.
Qed.

(** C7: in every run of the notebook, [visualize_channels] is called with
    the four components of the first training batch (the last one being
    the ground-truth target) and the channel names and colormaps, and
    [save_gifs_with_ground_truth] with the predictions, the ground truth,
    the channel names and the colormaps (and a file name prefix, a frame
    interval and the index of the sample).  [save_gifs_with_ground_truth],
    on tensors that hold the sample and the channels, writes one GIF per
    channel, named after the prefix and the channel, with one frame per
    predicted time step pairing the predicted field with the true one. *)
Theorem visualization_calls_and_gifs :
  (forall W (h : handler W) (w : W) (e : entry),
     In e (run h w) ->
     (target (made e) = visualize_channels ->
        exists loader batch ic t0 t1 tgt,
          args (made e) = [ic; t0; t1; tgt] /\
          kwargs (made e) = [("channel_names", VList channel_names);
                             ("channel_cmaps", VList custom_cmaps)] /\
          unpacked (within (run h w)) batch [ic; t0; t1; tgt] /\
          first_batch (within (run h w)) loader batch /\
          is_train_loader (within (run h w)) loader) /\
     (target (made e) = save_gifs_with_ground_truth ->
        exists predictions ground_truth,
          args (made e) = [] /\
          kwargs (made e) = [("predictions", predictions);
                             ("ground_truth", ground_truth);
                             ("channels", VList channels);
                             ("cmaps", VList cmaps);
                             ("filename_prefix", VStr "comparison_batch0");
                             ("interval", VFloat 2 (-1));
                             ("batch_idx", VInt 0)] /\
          is_predictions (within (run h w)) predictions /\
          is_ground_truth (within (run h w)) ground_truth)) /\
  (forall (predictions ground_truth : tensor) (names maps : list string)
          (filename_prefix : string) (pause : Q) (b : nat)
          (T B C T' B' C' : nat) (rest rest' : list nat),
     shape predictions = T :: B :: C :: rest ->
     shape ground_truth = T' :: B' :: C' :: rest' ->
     (T <= T')%nat -> (b < B)%nat -> (b < B')%nat ->
     (length names <= C)%nat -> (length names <= C')%nat ->
     exists out,
       Viz.save_gifs_with_ground_truth predictions ground_truth names maps
         filename_prefix pause b = Some out /\
       length out = min (length names) (length maps) /\
       forall ch name cmap,
         names !! ch = Some name -> maps !! ch = Some cmap ->
         exists shots,
           out !! ch = Some (Viz.gif_name filename_prefix name,
                             GifFile (Animation cmap pause shots)) /\
           length shots = T /\
           forall step, (step < T)%nat ->
             exists p g,
               shots !! step = Some (p, g) /\
               Viz.field_at predictions step b ch = Some p /\
               Viz.field_at ground_truth step b ch = Some g).
Proof.
  split; [| exact save_gifs_emits].
  intros W h w e Hin.
  destruct (run_meets_spec h w e Hin)
    as (_ & _ & _ & Hviz & _ & _ & _ & _ & _ & _ & _ & _ & Hgifs).
  split; [exact Hviz | exact Hgifs].
Qed.

Lemma visualization_calls_and_gifs_witness :
  (exists loader batch ic t0 t1 tgt,
     args (made (demo_entry 5)) = [ic; t0; t1; tgt] /\
     kwargs (made (demo_entry 5)) = [("channel_names", VList channel_names);
                                     ("channel_cmaps", VList custom_cmaps)] /\
     unpacked (within (run demo_env 0%nat)) batch [ic; t0; t1; tgt] /\
     first_batch (within (run demo_env 0%nat)) loader batch /\
     is_train_loader (within (run demo_env 0%nat)) loader) /\
  (exists predictions ground_truth,
     args (made (demo_entry 51)) = [] /\
     kwargs (made (demo_entry 51)) = [("predictions", predictions);
                                      ("ground_truth", ground_truth);
                                      ("channels", VList channels);
                                      ("cmaps", VList cmaps);
                                      ("filename_prefix", VStr "comparison_batch0");
                                      ("interval", VFloat 2 (-1));
                                      ("batch_idx", VInt 0)] /\
     is_predictions (within (run demo_env 0%nat)) predictions /\
     is_ground_truth (within (run demo_env 0%nat)) ground_truth) /\
  (exists out,
     Viz.save_gifs_with_ground_truth demo_predictions demo_ground_truth
       (strings_of channels) (strings_of cmaps) "comparison_batch0" (2 # 10) 0 = Some out /\
     length out = min (length (strings_of channels)) (length (strings_of cmaps)) /\
     forall ch name cmap,
       strings_of channels !! ch = Some name -> strings_of cmaps !! ch = Some cmap ->
       exists shots,
         out !! ch = Some (Viz.gif_name "comparison_batch0" name,
                           GifFile (Animation cmap (2 # 10) shots)) /\
         length shots = 2%nat /\
         forall step, (step < 2)%nat ->
           exists p g,
             shots !! step = Some (p, g) /\
             Viz.field_at demo_predictions step 0 ch = Some p /\
             Viz.field_at demo_ground_truth step 0 ch = Some g).
Proof.
  destruct visualization_calls_and_gifs as (Hrun & Hgifs).
  split; [| split].
  - apply (Hrun nat demo_env 0%nat (demo_entry 5)); [demo_in | vm_compute; reflexivity].
  - apply (Hrun nat demo_env 0%nat (demo_entry 51)); [demo_in | vm_compute; reflexivity].
  - apply (Hgifs demo_predictions demo_ground_truth (strings_of channels) (strings_of cmaps)
             "comparison_batch0" (2 # 10)%Q 0%nat 2%nat 1%nat 4%nat 2%nat 1%nat 4%nat
             [1%nat] [1%nat]);
      first [reflexivity | vm_compute; lia].
Defined.

(** The files written for the demo tensors. *)
Example demo_gifs :
  Viz.save_gifs_with_ground_truth demo_predictions demo_ground_truth
    (strings_of channels) (strings_of cmaps) "comparison_batch0" (2 # 10) 0 =
  Some
    [("comparison_batch0_pressure.gif",
      GifFile (Animation "viridis" (2 # 10)
        [(Tensor [1%nat] [1%Q], Tensor [1%nat] [11%Q]);
         (Tensor [1%nat] [5%Q], Tensor [1%nat] [15%Q])]));
     ("comparison_batch0_Reynolds.gif",
      GifFile (Animation "plasma" (2 # 10)
        [(Tensor [1%nat] [2%Q], Tensor [1%nat] [12%Q]);
         (Tensor [1%nat] [6%Q], Tensor [1%nat] [16%Q])]));
     ("comparison_batch0_u.gif",
      GifFile (Animation "inferno" (2 # 10)
        [(Tensor [1%nat] [3%Q], Tensor [1%nat] [13%Q]);
         (Tensor [1%nat] [7%Q], Tensor [1%nat] [17%Q])]));
     ("comparison_batch0_v.gif",
      GifFile (Animation "magma" (2 # 10)
        [(Tensor [1%nat] [4%Q], Tensor [1%nat] [14%Q]);
         (Tensor [1%nat] [8%Q], Tensor [1%nat] [18%Q])]))].
Proof. vm_compute. reflexivity. Qed.

(** *** The two test loaders *)

(** In every run of the notebook, the data loaders are built with batch
    size 8 and without shuffling; the sequence loader is over the
    [InitialConditionDataset] of the test directory with horizon 10 and
    [initial_condition_collate_fn], the ground-truth loader over the
    [GenericPhysicsDataset] of the same directory and horizon with
    [custom_collate_fn]. *)
Lemma loaders_configuration :
  forall W (h : handler W) (w : W) (e : entry),
    In e (run h w) ->
    target (made e) = DataLoader ->
    exists ds collate,
      args (made e) = [ds] /\
      kwargs (made e) = loader_options 8 false collate /\
      ((is_train_dataset (within (run h w)) ds /\ collate = custom_collate_fn) \/
       (is_seq_dataset (within (run h w)) ds /\ collate = initial_condition_collate_fn) \/
       (is_gt_dataset (within (run h w)) ds /\ collate = custom_collate_fn)).
Proof.
  intros W h w e Hin Ht.
  destruct (run_meets_spec h w e Hin) as (_ & _ & Hloader & _).
  exact (Hloader Ht).
Qed.

(** * Whole runs *)

Lemma result_call {W A} (h : handler W) (c : call) (k : response -> prog A) (w : W) :
  result h (Call c k) w = result h (k (h c w).1) (h c w).2.
Proof.
  unfold result. simpl. destruct (h c w) as [r w1]. simpl.
  destruct (exec h (k r) w1) as [[tr o] w2]. reflexivity.
Qed.

Lemma along_sound {W A} (Q : list entry -> outcome A -> Prop) (h : handler W) (p : prog A) :
  forall hist w,
    along hist Q p -> Q (rev (trace h p w) ++ hist) (result h p w).
Proof.
  induction p as [a | exc | c k IH]; intros hist w Hp.
  - exact Hp.
  - exact Hp.
  - rewrite trace_call, result_call. cbn [rev]. rewrite <- app_assoc.
    apply IH. apply Hp.
Qed.

Lemma along_bind_assoc {A B C} (Q : list entry -> outcome C -> Prop)
      (m : prog A) (f : A -> prog B) (g : B -> prog C) :
  forall hist,
    along hist Q (prog_bind m (fun x => prog_bind (f x) g)) ->
    along hist Q (prog_bind (prog_bind m f) g).
Proof.
  induction m as [a | exc | c k IH]; cbn; intros hist H; [exact H | exact H |].
  intros r. apply IH, H.
Qed.

Lemma along_truth_of {A} (Q : list entry -> outcome A -> Prop) (hist : list entry)
      (v : value) (k : bool -> prog A) :
  (forall b, along hist Q (k b)) ->
  (forall r, along (Entry (Call_ (Fn "bool") [v] []) r :: hist) Q
               (match r with Returned b => Ret (truthy b) | Raised e => Throw e end ≫= k)) ->
  along hist Q (truth_of v ≫= k).
Proof.
  intros Hdirect Hasked. destruct v; try apply Hdirect; exact Hasked.
Qed.

Lemma along_index_of {A} (Q : list entry -> outcome A -> Prop) (hist : list entry)
      (v : value) (k : Z -> prog A) :
  (forall n, along hist Q (k n)) ->
  Q hist (Uncaught "TypeError") ->
  (forall r, along (Entry (Call_ (Fn "operator.index") [v] []) r :: hist) Q
               (match r with
                | Returned x =>
                    match as_int x with Some n => Ret n | None => Throw "TypeError" end
                | Raised e => Throw e
                end ≫= k)) ->
  along hist Q (index_of v ≫= k).
Proof.
  intros Hdirect Herr Hasked. unfold index_of.
  destruct (as_int v) as [n |]; [apply Hdirect |].
  destruct v; try exact Herr; exact Hasked.
Qed.

(** A path has reached its end: check it. *)
Ltac checked :=
  split; [ reflexivity |];
  split; [ reflexivity |];
  split; [ repeat constructor |];
  first [ exact I | split; reflexivity ].

Ltac at_end :=
  lazymatch goal with
  | |- whole_run_spec _ (Done _) =>
      vm_compute; split; [ checked | reflexivity ]
  | |- whole_run_spec _ (Uncaught _) =>
      split; [ vm_compute; checked | exact I ]
  end.

(** Follow every path of the notebook to its end. *)
Ltac roam :=
  repeat
    (lazymatch goal with
     | |- along ?hist ?Q ?p =>
         let p' := eval hnf in p in
         lazymatch p' with
         | Call ?c ?k =>
             change (forall r, along (Entry c r :: hist) Q (k r)); intros [?v | ?exc]
         | Ret ?a => change (Q hist (Done a)); at_end
         | Throw ?e => change (Q hist (Uncaught e)); at_end
         | _ =>
             change (along hist Q p');
             cbn [mbind prog_mbind prog_bind];
             repeat apply along_bind_assoc;
             lazymatch goal with
             | |- along _ _ (prog_bind (unpack4 ?v) _) =>
                 unfold unpack4 at 1;
                 destruct (sequence_items v) as [[| ? [| ? [| ? [| ? [| ? ?]]]]] |]
             | |- along _ _ (prog_bind (truth_of _) _) =>
                 apply along_truth_of; [ intros ? | intros [?v | ?exc] ]
             | |- along _ _ (prog_bind (index_of _) _) =>
                 apply along_index_of; [ intros ? | at_end | intros [?v | ?exc] ]
             | |- along _ _ ?q =>
                 match q with
                 | context [String.eqb ?e "StopIteration"] =>
                     is_var e;
                     let E := fresh "E" in
                     destruct (String.eqb e "StopIteration") eqn:E;
                     [ apply String.eqb_eq in E; subst e | clear E ]
                 | context [as_int ?x] => is_var x; destruct (as_int x)
                 | context [truthy ?x] => is_var x; destruct (truthy x)
                 | context [range ?n] =>
                     is_var n;
                     let E := fresh "E" in
                     destruct (range n) eqn:E; [ | apply range_head in E; subst ]
                 | context [if ?b then _ else _] => is_var b; destruct b
                 end
             end
         end
     end).

(** Every run of the notebook, taken to its end. *)
Lemma notebook_paths : along [] whole_run_spec notebook.
Proof.
  unfold notebook.
  roam.
Qed.

Lemma run_whole {W} (h : handler W) (w : W) :
  run_checks (List.map made (run h w)) = true /\
  match result h notebook w with
  | Done _ => forallb clean (run h w) = true
  | Uncaught _ => True
  end.
Proof.
  pose proof (along_sound whole_run_spec h notebook [] w notebook_paths) as [(Hc & _) Ho].
  rewrite app_nil_r in Hc, Ho. fold (run h w) in Hc, Ho.
  rewrite rev_involutive in Hc. split; [exact Hc |].
  destruct (result h notebook w) as [u | x]; [| exact I].
  rewrite forallb_forall in *. intros e He. apply Ho, in_rev. rewrite rev_involutive. exact He.
Qed.

Lemma run_contexts {W} (h : handler W) (w : W) :
  contexts_match (List.map made (run h w)).
Proof.
  pose proof (along_sound whole_run_spec h notebook [] w notebook_paths)
    as [(_ & _ & Hc & _) _].
  rewrite app_nil_r in Hc. fold (run h w) in Hc.
  rewrite rev_involutive in Hc. exact Hc.
Qed.

Lemma run_entered {W} (h : handler W) (w : W) :
  entered_is_left (run h w) = true.
Proof.
  pose proof (along_sound whole_run_spec h notebook [] w notebook_paths)
    as [(_ & Hc & _) _].
  rewrite app_nil_r in Hc. fold (run h w) in Hc.
  rewrite rev_involutive in Hc. exact Hc.
Qed.

Lemma run_failure {W} (h : handler W) (w : W) :
  failure_ends (run h w) (result h notebook w).
Proof.
  pose proof (along_sound whole_run_spec h notebook [] w notebook_paths)
    as [(_ & _ & _ & Hc) _].
  rewrite app_nil_r in Hc. fold (run h w) in Hc.
  rewrite rev_involutive in Hc. exact Hc.
Qed.

Lemma entered_is_left_spec (l : list entry) :
  entered_is_left l = true ->
  forall i e v,
    l !! i = Some e -> calls_method "__enter__" (made e) = true -> got e = Returned v ->
    exists b x,
      l !! S i = Some b /\ calls_object (made b) = true /\
      l !! S (S i) = Some x /\ calls_method "__exit__" (made x) = true.
Proof.
  induction l as [| e0 rest IH]; intros Hall i e v Hi He Hv.
  - discriminate Hi.
  - cbn [entered_is_left] in Hall. apply andb_prop in Hall as [Hhere Hrest].
    destruct i as [| i].
    + cbn in Hi. injection Hi as <-. rewrite He, Hv in Hhere.
      destruct rest as [| b [| x rest']]; try discriminate Hhere.
      apply andb_prop in Hhere as [Hb Hx]. exists b, x. cbn. auto.
    + destruct (IH Hrest i e v Hi He Hv) as (b & x & Hb & Hob & Hx & Hex).
      exists b, x. auto.
Qed.

Lemma failure_ends_spec (l : list entry) (o : outcome unit) :
  failure_ends l o ->
  forall i e x,
    l !! i = Some e -> got e = Raised x ->
    calls_object (made e) = false -> calls_fn (Fn "next") (made e) = false ->
    length l = S i /\ o = Uncaught x.
Proof.
  induction l as [| e0 rest IH]; intros Hall i e x Hi Hx Hobj Hnext.
  - discriminate Hi.
  - cbn [failure_ends] in Hall. destruct i as [| i].
    + cbn in Hi. injection Hi as <-. rewrite Hx, Hobj, Hnext in Hall.
      destruct Hall as [-> Ho]. split; [reflexivity | exact Ho].
    + cbn in Hi.
      assert (Hrest : failure_ends rest o \/ rest = []).
      { destruct (got e0); [left; exact Hall |].
        destruct (calls_object (made e0) || calls_fn (Fn "next") (made e0));
          [left; exact Hall | right; exact (proj1 Hall)]. }
      destruct Hrest as [Hrest | ->]; [| discriminate Hi].
      destruct (IH Hrest i e x Hi Hx Hobj Hnext) as [Hl Ho].
      split; [cbn [length]; rewrite Hl; reflexivity | exact Ho].
Qed.

Lemma context_pairs_spec (l : list call) :
  contexts_match l ->
  forall j a b c x n y n',
    l !! j = Some a -> l !! S j = Some b -> l !! S (S j) = Some c ->
    calls_object b = true ->
    target a = Method x n -> target c = Method y n' ->
    x = y.
Proof.
  unfold contexts_match.
  induction l as [| a0 rest IH]; intros Hall j a b c x n y n' Ha Hb Hc Hobj Hta Htc.
  - discriminate Ha.
  - cbn [context_pairs] in Hall. apply Forall_app in Hall as [Hhere Hrest].
    destruct j as [| j].
    + cbn in Ha, Hb, Hc. injection Ha as <-.
      destruct rest as [| b0 [| c0 rest']]; try discriminate.
      cbn in Hb, Hc. injection Hb as <-. injection Hc as <-.
      rewrite Hobj, Hta, Htc in Hhere.
      apply Forall_inv in Hhere. exact Hhere.
    + exact (IH Hrest j a b c x n y n' Ha Hb Hc Hobj Hta Htc).
Qed.

Lemma run_checks_parts (calls : list call) :
  run_checks calls = true ->
  (length calls <= most_calls)%nat /\
  increasing (omap stage calls) = true /\
  guarded None calls = true.
Proof.
  unfold run_checks. intros H.
  apply andb_prop in H as [H Hg]. apply andb_prop in H as [Hl Hi].
  apply Nat.leb_le in Hl. auto.
Qed.

(** X1: whatever the library answers, a run of the notebook makes at most
    73 calls: each loop is left after its first item. *)
Theorem run_makes_at_most_73_calls :
  forall W (h : handler W) (w : W), (length (run h w) <= 73)%nat.
Proof.
  intros W h w.
  destruct (run_checks_parts _ (proj1 (run_whole h w))) as (Hl & _).
  rewrite length_map in Hl. exact Hl.
Qed.

(** The bound is reached when every batch, truth value and size is an
    object that Python has to ask. *)
Example asking_run_makes_73_calls :
  length (run asking_env 0%nat) = 73%nat /\ result asking_env notebook 0%nat = Done tt.
Proof. vm_compute. split; reflexivity. Qed.

Lemma increasing_cons (a : nat) (l : list nat) :
  increasing (a :: l) = true -> Forall (lt a) l /\ increasing l = true.
Proof.
  revert a. induction l as [| b l IH]; intros a H; [split; [constructor | reflexivity] |].
  cbn [increasing] in H. apply andb_prop in H as [Hab Hl].
  apply Nat.ltb_lt in Hab. destruct (IH b Hl) as [Hall Hinc].
  split; [| exact Hl].
  constructor; [exact Hab |].
  eapply Forall_impl; [exact Hall |]. intros x Hx. cbn in Hx. lia.
Qed.

Lemma increasing_omap_lt {A} (f : A -> option nat) (l : list A) :
  increasing (omap f l) = true ->
  forall i j x y a b,
    (i < j)%nat -> l !! i = Some x -> l !! j = Some y ->
    f x = Some a -> f y = Some b -> (a < b)%nat.
Proof.
  induction l as [| x0 l IH]; intros Hinc i j x y a b Hij Hi Hj Hx Hy.
  - rewrite lookup_nil in Hi. discriminate Hi.
  - assert (Htail : increasing (omap f l) = true).
    { cbn [omap list_omap] in Hinc. destruct (f x0); [| exact Hinc].
      exact (proj2 (increasing_cons _ _ Hinc)). }
    destruct j as [| j]; [lia |]. cbn in Hj.
    destruct i as [| i].
    + cbn in Hi. injection Hi as ->.
      cbn [omap list_omap] in Hinc. rewrite Hx in Hinc.
      destruct (increasing_cons _ _ Hinc) as [Hall _].
      rewrite Forall_forall in Hall. apply Hall.
      apply list_elem_of_omap. exists y. split; [| exact Hy].
      apply list_elem_of_lookup. eauto.
    + cbn in Hi. apply (IH Htail i j x y a b); auto. lia.
Qed.

Lemma guarded_spec (l : list call) :
  forall prev,
    guarded prev l = true ->
    forall i c,
      l !! i = Some c -> calls_object c = true ->
      (exists a,
         match i with
         | O => prev = Some a
         | S i' => l !! i' = Some a
         end /\ calls_method "__enter__" a = true) /\
      (exists n, l !! S i = Some n /\ calls_method "__exit__" n = true).
Proof.
  induction l as [| c0 l IH]; intros prev Hg i c Hi Hc.
  - rewrite lookup_nil in Hi. discriminate Hi.
  - cbn [guarded] in Hg. apply andb_prop in Hg as [Hhere Hrest].
    destruct i as [| i].
    + cbn in Hi. injection Hi as ->. rewrite Hc in Hhere.
      apply andb_prop in Hhere as [Hprev Hnext].
      split.
      * destruct prev as [a |]; [| discriminate Hprev]. eauto.
      * destruct l as [| n l]; [discriminate Hnext |]. exists n. auto.
    + cbn in Hi. destruct (IH (Some c0) Hrest i c Hi Hc) as [(a & Ha & Henter) Hexit].
      split; [| exact Hexit].
      exists a. split; [| exact Henter].
      destruct i as [| i]; [injection Ha as <-; reflexivity | exact Ha].
Qed.

(** X2: in every run of the notebook the steps of the pipeline come in the
    order of the cells -- statistics, data visualization, model
    construction, training, loading of the weights, evaluation mode,
    prediction, comparison GIFs -- and each of them at most once. *)
Theorem pipeline_steps_in_order :
  forall W (h : handler W) (w : W) (i j : nat) (ei ej : entry) (si sj : nat),
    (i < j)%nat ->
    run h w !! i = Some ei -> run h w !! j = Some ej ->
    stage (made ei) = Some si -> stage (made ej) = Some sj ->
    (si < sj)%nat.
Proof.
  intros W h w i j ei ej si sj Hij Hi Hj Hsi Hsj.
  destruct (run_checks_parts _ (proj1 (run_whole h w))) as (_ & Hinc & _).
  apply (increasing_omap_lt stage (List.map made (run h w)) Hinc i j (made ei) (made ej));
    auto; rewrite list_lookup_fmap; [rewrite Hi | rewrite Hj]; reflexivity.
Qed.

Lemma pipeline_steps_in_order_witness :
  stage (made (demo_entry 22)) = Some 3%nat /\
  stage (made (demo_entry 25)) = Some 4%nat /\
  (3 < 4)%nat.
Proof.
  split; [vm_compute; reflexivity |]. split; [vm_compute; reflexivity |].
  apply (pipeline_steps_in_order nat demo_env 0%nat 22 25 (demo_entry 22) (demo_entry 25));
    first [lia | vm_compute; reflexivity].
Defined.

(** X4: a run of the notebook ends normally only if every call returned,
    apart from a [next] that found its iterator exhausted: no exception is
    swallowed. *)
Theorem normal_end_means_no_call_failed :
  forall W (h : handler W) (w : W),
    result h notebook w = Done tt ->
    forall e, In e (run h w) ->
      (exists v, got e = Returned v) \/
      (target (made e) = Fn "next" /\ got e = Raised "StopIteration").
Proof.
  intros W h w Hdone e Hin.
  pose proof (proj2 (run_whole h w)) as Ho. rewrite Hdone in Ho.
  rewrite forallb_forall in Ho. specialize (Ho e Hin).
  unfold clean in Ho. destruct (got e) as [v | x]; [left; eauto | right].
  apply andb_prop in Ho as [Hnext Hx]. apply String.eqb_eq in Hx. subst x.
  split; [| reflexivity].
  unfold calls_fn in Hnext. destruct (target (made e)) as [n | | |]; try discriminate Hnext.
  apply String.eqb_eq in Hnext. subst n. reflexivity.
Qed.

Lemma normal_end_means_no_call_failed_witness :
  (exists v, got (demo_entry 22) = Returned v) \/
  (target (made (demo_entry 22)) = Fn "next" /\ got (demo_entry 22) = Raised "StopIteration").
Proof.
  apply (normal_end_means_no_call_failed nat demo_env 0%nat).
  - vm_compute. reflexivity.
  - apply demo_entry_in. rewrite demo_run_length. lia.
Defined.

(** ** How the values hang together *)

Lemma always_truth_known {A} (seen : entry -> Prop) (P : call -> Prop)
      (v : value) (k : bool -> prog A) :
  (forall c, protocol_call c -> P c) ->
  (forall b, (forall known, v = VBool known -> b = known) -> always seen P (k b)) ->
  always seen P (truth_of v ≫= k).
Proof.
  intros protocol Hk.
  destruct v;
    try (apply Hk; intros known Hv; first [discriminate Hv | injection Hv as <-; reflexivity]);
    (cbn; split; [apply protocol; right; right; left; reflexivity |];
     intros [x | e] _; [apply Hk; intros known Hv; discriminate Hv | exact I]).
Qed.

Lemma protocol_calls_meet_pipeline_spec (seen : entry -> Prop) (c : call) :
  protocol_call c -> pipeline_call_spec seen c.
Proof.
  intros Hc. unfold pipeline_call_spec, protocol_call in *.
  autounfold with names in *.
  repeat split; intros;
    repeat match goal with
           | H : _ \/ _ |- _ => destruct H as [H | H]
           end;
    congruence.
Qed.

(** The conjunct for [torch.device]: its argument follows the answer of
    [torch.cuda.is_available]. *)
Ltac device_conj :=
  intros _;
  lazymatch goal with
  | |- context [if ?b then "cuda" else "cpu"] =>
      match goal with
      | Hb : forall known, ?v = VBool known -> b = known |- _ =>
          exists v, (if b then "cuda" else "cpu");
          split; [reflexivity |]; split; [reflexivity |];
          split; [unfold answered; assumption |];
          split; [destruct b; auto |];
          split; intros Hv; rewrite (Hb _ Hv); reflexivity
      end
  end.

Ltac pipeline_spec :=
  unfold pipeline_call_spec; repeat split;
  first [ mismatch
        | device_conj
        | intros;
          try match goal with
              | H : target _ = Method _ _ |- _ => cbn [target] in H; injection H as <-
              | H : target _ = Apply _ |- _ => cbn [target] in H; injection H as <-
              end;
          autounfold with bindings; settle ].

Ltac walk_known side :=
  repeat
    (lazymatch goal with
     | |- always ?seen ?P ?p =>
         let p' := eval hnf in p in
         lazymatch p' with
         | Call ?c ?k =>
             change (P c /\ forall r, seen (Entry c r) -> always seen P (k r));
             split; [ side | intros [?v | ?exc] ? ]
         | Ret _ => exact I
         | Throw _ => exact I
         | _ =>
             change (always seen P p');
             cbn [mbind prog_mbind prog_bind];
             repeat apply always_bind_assoc;
             lazymatch goal with
             | |- always _ _ (prog_bind (unpack4 _) _) =>
                 apply always_unpack4;
                 [ apply protocol_calls_meet_pipeline_spec | intros ? ? ? ? ? ]
             | |- always _ _ (prog_bind (truth_of _) _) =>
                 apply always_truth_known;
                 [ apply protocol_calls_meet_pipeline_spec | intros ? ? ]
             | |- always _ _ (prog_bind (index_of _) _) =>
                 apply always_index_of;
                 [ apply protocol_calls_meet_pipeline_spec | intros ? ]
             | |- always _ _ ?q =>
                 match q with
                 | context [String.eqb ?e "StopIteration"] =>
                     is_var e; destruct (String.eqb e "StopIteration")
                 | context [range ?n] =>
                     is_var n;
                     let E := fresh "E" in
                     destruct (range n) eqn:E; [ | apply range_head in E; subst ]
                 | context [if ?b then _ else _] => is_var b; destruct b
                 end
             end
         end
     end).

Lemma notebook_pipeline (seen : entry -> Prop) :
  always seen (pipeline_call_spec seen) notebook.
Proof.
  unfold notebook.
  walk_known ltac:(solve [pipeline_spec]).
Qed.

Lemma run_meets_pipeline_spec {W} (h : handler W) (w : W) (e : entry) :
  In e (run h w) -> pipeline_call_spec (within (run h w)) (made e).
Proof.
  apply (always_sound (within (run h w)) (pipeline_call_spec (within (run h w))) h notebook w).
  - intros x Hx. exact Hx.
  - apply notebook_pipeline.
Qed.


(** X6: in every run of the notebook, the optimizer given to [train_model]
    is Adam, with learning rate 1e-5, over the parameters of the very model
    given to [train_model], and the loss criterion given to [train_model] is
    the one that model was constructed with. *)
Theorem training_optimizes_the_model_it_trains :
  forall W (h : handler W) (w : W) (e : entry),
    In e (run h w) ->
    target (made e) = train_model ->
    exists m0 m loader cr opt d i ps,
      args (made e) = [m; loader; cr; opt] /\
      answered (within (run h w)) (Call_ (Method m0 "cuda") [] []) m /\
      answered (within (run h w)) (Call_ PARCv2 [d; i; cr] []) m0 /\
      answered (within (run h w)) (Call_ Adam [ps] [("lr", VFloat 1 (-5))]) opt /\
      answered (within (run h w)) (Call_ (Method m "parameters") [] []) ps.
Proof.
  intros W h w e Hin Ht.
  destruct (run_meets_pipeline_spec h w e Hin) as (_ & Htrain & _).
  exact (Htrain Ht).
Qed.

Lemma training_optimizes_the_model_it_trains_witness :
  exists m0 m loader cr opt d i ps,
    args (made (demo_entry 22)) = [m; loader; cr; opt] /\
    answered (within (run demo_env 0%nat)) (Call_ (Method m0 "cuda") [] []) m /\
    answered (within (run demo_env 0%nat)) (Call_ PARCv2 [d; i; cr] []) m0 /\
    answered (within (run demo_env 0%nat)) (Call_ Adam [ps] [("lr", VFloat 1 (-5))]) opt /\
    answered (within (run demo_env 0%nat)) (Call_ (Method m "parameters") [] []) ps.
Proof.
  apply (training_optimizes_the_model_it_trains nat demo_env 0%nat (demo_entry 22)).
  - apply demo_entry_in. rewrite demo_run_length. lia.
  - vm_compute. reflexivity.
Defined.

(** X7: in every run of the notebook, the differentiator and the
    integrator given to [PARCv2] are built on one and the same
    finite-difference object, the one [FiniteDifference(padding_mode=
    "replicate").cuda()] returned. *)
Theorem differentiator_and_integrator_share_the_finite_difference :
  forall W (h : handler W) (w : W) (e : entry),
    In e (run h w) ->
    target (made e) = PARCv2 ->
    exists d i cr d0 i0 unet heun rd,
      args (made e) = [d; i; cr] /\
      answered (within (run h w)) (Call_ (Method d0 "cuda") [] []) d /\
      answered (within (run h w))
        (Call_ ADRDifferentiator (differentiator_args unet rd) []) d0 /\
      answered (within (run h w)) (Call_ (Method i0 "cuda") [] []) i /\
      answered (within (run h w)) (Call_ Integrator (integrator_args heun rd) []) i0 /\
      is_right_diff (within (run h w)) rd.
Proof.
  intros W h w e Hin Ht.
  destruct (run_meets_pipeline_spec h w e Hin) as (_ & _ & Hparc & _).
  exact (Hparc Ht).
Qed.

Lemma differentiator_and_integrator_share_the_finite_difference_witness :
  exists d i cr d0 i0 unet heun rd,
    args (made (demo_entry 18)) = [d; i; cr] /\
    answered (within (run demo_env 0%nat)) (Call_ (Method d0 "cuda") [] []) d /\
    answered (within (run demo_env 0%nat))
      (Call_ ADRDifferentiator (differentiator_args unet rd) []) d0 /\
    answered (within (run demo_env 0%nat)) (Call_ (Method i0 "cuda") [] []) i /\
    answered (within (run demo_env 0%nat)) (Call_ Integrator (integrator_args heun rd) []) i0 /\
    is_right_diff (within (run demo_env 0%nat)) rd.
Proof.
  apply (differentiator_and_integrator_share_the_finite_difference
           nat demo_env 0%nat (demo_entry 18)).
  - apply demo_entry_in. rewrite demo_run_length. lia.
  - vm_compute. reflexivity.
Defined.



(** Without a GPU the demo run asks for the CPU. *)
Example demo_device_is_cpu : args (made (demo_entry 24)) = [VStr "cpu"].
Proof. vm_compute. reflexivity. Qed.

(** X9: in every run of the notebook, the three inputs of the model and
    the ground truth passed to [save_gifs_with_ground_truth] have been
    moved with [.to] to one and the same device, a value [torch.device]
    returned, and the predictions passed on are what the model returned for
    these inputs. *)
Theorem predictions_and_ground_truth_share_the_device :
  forall W (h : handler W) (w : W) (e : entry),
    In e (run h w) ->
    (forall m, target (made e) = Apply m ->
       exists ic t0 t1 a b c dev,
         args (made e) = [ic; t0; t1] /\
         answered (within (run h w)) (Call_ (Method a "to") [dev] []) ic /\
         answered (within (run h w)) (Call_ (Method b "to") [dev] []) t0 /\
         answered (within (run h w)) (Call_ (Method c "to") [dev] []) t1 /\
         is_device (within (run h w)) dev) /\
    (target (made e) = save_gifs_with_ground_truth ->
       exists p g m ic t0 t1 a d dev,
         keyword (made e) "predictions" = Some p /\
         keyword (made e) "ground_truth" = Some g /\
         answered (within (run h w)) (Call_ (Apply m) [ic; t0; t1] []) p /\
         answered (within (run h w)) (Call_ (Method a "to") [dev] []) ic /\
         answered (within (run h w)) (Call_ (Method d "to") [dev] []) g /\
         is_device (within (run h w)) dev).
Proof.
  intros W h w e Hin.
  destruct (run_meets_pipeline_spec h w e Hin) as (_ & _ & _ & Happly & Hgifs & _).
  split; [exact Happly | exact Hgifs].
Qed.

Lemma predictions_and_ground_truth_share_the_device_witness :
  (exists ic t0 t1 a b c dev,
     args (made (demo_entry 43)) = [ic; t0; t1] /\
     answered (within (run demo_env 0%nat)) (Call_ (Method a "to") [dev] []) ic /\
     answered (within (run demo_env 0%nat)) (Call_ (Method b "to") [dev] []) t0 /\
     answered (within (run demo_env 0%nat)) (Call_ (Method c "to") [dev] []) t1 /\
     is_device (within (run demo_env 0%nat)) dev) /\
  (exists p g m ic t0 t1 a d dev,
     keyword (made (demo_entry 51)) "predictions" = Some p /\
     keyword (made (demo_entry 51)) "ground_truth" = Some g /\
     answered (within (run demo_env 0%nat)) (Call_ (Apply m) [ic; t0; t1] []) p /\
     answered (within (run demo_env 0%nat)) (Call_ (Method a "to") [dev] []) ic /\
     answered (within (run demo_env 0%nat)) (Call_ (Method d "to") [dev] []) g /\
     is_device (within (run demo_env 0%nat)) dev).
Proof.
  split.
  - refine (proj1 (predictions_and_ground_truth_share_the_device
                     nat demo_env 0%nat (demo_entry 43) _) _ _).
    + apply demo_entry_in. rewrite demo_run_length. lia.
    + vm_compute. reflexivity.
  - refine (proj2 (predictions_and_ground_truth_share_the_device
                     nat demo_env 0%nat (demo_entry 51) _) _).
    + apply demo_entry_in. rewrite demo_run_length. lia.
    + vm_compute. reflexivity.
Defined.

(** X10: in every run of the notebook, training saves into the directory
    the weights are then loaded from: the [save_dir] of [train_model] is
    the parent directory of the checkpoint path given to
    [load_model_weights], and the normalization file lies in that directory
    too. *)
Theorem weights_are_loaded_from_the_training_directory :
  forall W (h : handler W) (w : W) (e1 e2 : entry),
    In e1 (run h w) -> In e2 (run h w) ->
    target (made e1) = train_model ->
    target (made e2) = load_model_weights ->
    exists dir checkpoint,
      keyword (made e1) "save_dir" = Some (VPath dir) /\
      args (made e2) !! 1%nat = Some (VPath checkpoint) /\
      parent checkpoint = dir /\
      parent min_max_file = dir.
Proof.
  intros W h w e1 e2 H1 H2 Ht1 Ht2.
  destruct (run_meets_spec h w e1 H1) as (_ & _ & _ & _ & _ & _ & _ & _ & Htrain & _).
  destruct (run_meets_spec h w e2 H2) as (_ & _ & _ & _ & _ & _ & _ & _ & _ & Hload & _).
  destruct (Htrain Ht1) as (? & ? & ? & ? & _ & Hk & _).
  destruct (Hload Ht2) as (? & ? & Ha & _).
  exists (parent train_dir), model_weights_path.
  unfold keyword. rewrite Hk, Ha. repeat split; reflexivity.
Qed.

Lemma weights_are_loaded_from_the_training_directory_witness :
  exists dir checkpoint,
    keyword (made (demo_entry 22)) "save_dir" = Some (VPath dir) /\
    args (made (demo_entry 25)) !! 1%nat = Some (VPath checkpoint) /\
    parent checkpoint = dir /\
    parent min_max_file = dir.
Proof.
  apply (weights_are_loaded_from_the_training_directory nat demo_env 0%nat
           (demo_entry 22) (demo_entry 25)).
  - apply demo_entry_in. rewrite demo_run_length. lia.
  - apply demo_entry_in. rewrite demo_run_length. lia.
  - vm_compute. reflexivity.
  - vm_compute. reflexivity.
Defined.

(** X11: when no loader yields a batch, the notebook visualizes nothing
    and predicts nothing: it makes no call to [visualize_channels], no
    forward pass and no call to [save_gifs_with_ground_truth]. *)
Theorem nothing_is_shown_without_a_batch :
  forall W (h : handler W) (w : W),
    (forall e v, In e (run h w) -> target (made e) = Fn "next" -> got e <> Returned v) ->
    forall e, In e (run h w) ->
      target (made e) <> visualize_channels /\
      target (made e) <> save_gifs_with_ground_truth /\
      calls_object (made e) = false.
Proof.
  intros W h w Hnone e Hin.
  assert (Hbatch : forall loader batch, ~ first_batch (within (run h w)) loader batch).
  { intros loader batch (it & Hnext & _). exact (Hnone _ batch Hnext eq_refl eq_refl). }
  destruct (run_meets_spec h w e Hin)
    as (_ & _ & _ & Hviz & _ & _ & _ & _ & _ & _ & _ & Happly & Hgifs).
  split; [| split].
  - intros Ht. destruct (Hviz Ht) as (loader & batch & ? & ? & ? & ? & _ & _ & _ & Hb & _).
    exact (Hbatch _ _ Hb).
  - intros Ht.
    destruct (Hgifs Ht) as (? & ? & _ & _ & _ & (loader & batch & ? & ? & ? & ? & _ & _ & Hb & _)).
    exact (Hbatch _ _ Hb).
  - unfold calls_object. destruct (target (made e)) as [| | | m] eqn:Ht; try reflexivity.
    destruct (Happly m eq_refl)
      as (_ & ? & ? & ? & _ & _ & (loader & batch & ? & ? & ? & ? & _ & _ & _ & _ & Hb & _)).
    destruct (Hbatch _ _ Hb).
Qed.

Lemma empty_run_yields_no_batch :
  forall e v, In e (run empty_env 0%nat) -> target (made e) = Fn "next" -> got e <> Returned v.
Proof.
  assert (Hall : forallb (fun e => negb (calls_fn (Fn "next") (made e))
                                   || match got e with Raised _ => true | _ => false end)
                         (run empty_env 0%nat) = true) by (vm_compute; reflexivity).
  rewrite forallb_forall in Hall. intros e v Hin Ht Hg.
  specialize (Hall e Hin). unfold calls_fn in Hall. rewrite Ht, Hg in Hall.
  discriminate Hall.
Qed.

Lemma nothing_is_shown_without_a_batch_witness :
  let e := nth 25 (run empty_env 0%nat) (Entry (Call_ (Fn "") [] []) (Raised "")) in
  target (made e) <> visualize_channels /\
  target (made e) <> save_gifs_with_ground_truth /\
  calls_object (made e) = false.
Proof.
  apply (nothing_is_shown_without_a_batch nat empty_env 0%nat empty_run_yields_no_batch).
  apply nth_In. vm_compute. lia.
Defined.

(** With empty loaders the notebook still builds, trains and loads the
    model, and ends normally. *)
Example empty_run_completes :
  result empty_env notebook 0%nat = Done tt /\
  omap stage (List.map made (run empty_env 0%nat)) = [0; 2; 3; 4; 5]%nat.
Proof. vm_compute. split; reflexivity. Qed.

(** X12: in every run of the notebook, every data loader is built with
    batch size 8, no shuffling, one worker and pinned memory, over a dataset
    a constructor call of this run returned, with the collate function of
    that dataset class. *)
Theorem loaders_are_built_alike :
  forall W (h : handler W) (w : W) (e : entry),
    In e (run h w) ->
    target (made e) = DataLoader ->
    exists ds collate,
      args (made e) = [ds] /\
      kwargs (made e) = [("batch_size", VInt 8);
                         ("shuffle", VBool false);
                         ("num_workers", VInt 1);
                         ("pin_memory", VBool true);
                         ("collate_fn", collate)] /\
      ((is_train_dataset (within (run h w)) ds /\ collate = custom_collate_fn) \/
       (is_seq_dataset (within (run h w)) ds /\ collate = initial_condition_collate_fn) \/
       (is_gt_dataset (within (run h w)) ds /\ collate = custom_collate_fn)).
Proof.
  intros W h w e Hin Ht.
  destruct (run_meets_spec h w e Hin) as (_ & _ & Hloader & _).
  exact (Hloader Ht).
Qed.

Lemma loaders_are_built_alike_witness :
  exists ds collate,
    args (made (demo_entry 27)) = [ds] /\
    kwargs (made (demo_entry 27)) = [("batch_size", VInt 8);
                                     ("shuffle", VBool false);
                                     ("num_workers", VInt 1);
                                     ("pin_memory", VBool true);
                                     ("collate_fn", collate)] /\
    ((is_train_dataset (within (run demo_env 0%nat)) ds /\ collate = custom_collate_fn) \/
     (is_seq_dataset (within (run demo_env 0%nat)) ds /\
      collate = initial_condition_collate_fn) \/
     (is_gt_dataset (within (run demo_env 0%nat)) ds /\ collate = custom_collate_fn)).
Proof.
  apply (loaders_are_built_alike nat demo_env 0%nat (demo_entry 27)).
  - apply demo_entry_in. rewrite demo_run_length. lia.
  - vm_compute. reflexivity.
Defined.

(** X3: in every run of the notebook a forward pass of the model is made
    inside [torch.no_grad()]: the call right before it enters, and the call
    right after it leaves, one and the same context, which
    [torch.no_grad()] returned -- also when the model raises. *)
Theorem forward_pass_is_inside_no_grad :
  forall W (h : handler W) (w : W) (i : nat) (e : entry),
    run h w !! i = Some e ->
    calls_object (made e) = true ->
    exists j a x cm,
      i = S j /\
      run h w !! j = Some a /\ target (made a) = Method cm "__enter__" /\
      run h w !! S i = Some x /\ target (made x) = Method cm "__exit__" /\
      answered (within (run h w)) (Call_ (Fn "torch.no_grad") [] []) cm.
Proof.
  intros W h w i e Hi He.
  destruct (run_checks_parts _ (proj1 (run_whole h w))) as (_ & _ & Hg).
  destruct (guarded_spec _ None Hg i (made e)) as [(a & Ha & Henter) (x & Hx & Hexit)].
  { rewrite list_lookup_fmap, Hi. reflexivity. }
  { exact He. }
  destruct i as [| j]; [discriminate Ha |].
  rewrite list_lookup_fmap in Ha, Hx.
  destruct (run h w !! j) as [ea |] eqn:Hj; [| discriminate Ha]. injection Ha as <-.
  destruct (run h w !! S (S j)) as [ex |] eqn:Hk; [| discriminate Hx]. injection Hx as <-.
  unfold calls_method in Henter, Hexit.
  destruct (target (made ea)) as [| cm n | |] eqn:Hta; try discriminate Henter.
  destruct (target (made ex)) as [| cm' n' | |] eqn:Htx; try discriminate Hexit.
  apply String.eqb_eq in Henter, Hexit. subst n n'.
  assert (Hsame : cm = cm').
  { apply (context_pairs_spec _ (run_contexts h w) j (made ea) (made e) (made ex)
             cm "__enter__" cm' "__exit__"); try assumption.
    - rewrite list_lookup_fmap, Hj. reflexivity.
    - rewrite list_lookup_fmap, Hi. reflexivity.
    - rewrite list_lookup_fmap, Hk. reflexivity. }
  subst cm'.
  assert (Hea : In ea (run h w)) by (apply list_elem_of_In, list_elem_of_lookup; eauto).
  destruct (run_meets_pipeline_spec h w ea Hea) as (_ & _ & _ & _ & _ & Hin & _).
  exists j, ea, ex, cm.
  split; [reflexivity |].
  split; [first [exact Hj | reflexivity] |]. split; [exact Hta |].
  split; [first [exact Hk | reflexivity] |]. split; [exact Htx |].
  exact (Hin cm Hta).
Qed.

Lemma forward_pass_is_inside_no_grad_witness :
  exists j a x cm,
    43%nat = S j /\
    run demo_env 0%nat !! j = Some a /\ target (made a) = Method cm "__enter__" /\
    run demo_env 0%nat !! 44%nat = Some x /\ target (made x) = Method cm "__exit__" /\
    answered (within (run demo_env 0%nat)) (Call_ (Fn "torch.no_grad") [] []) cm.
Proof.
  apply (forward_pass_is_inside_no_grad nat demo_env 0%nat 43%nat (demo_entry 43)).
  - vm_compute. reflexivity.
  - vm_compute. reflexivity.
Defined.

(** X13: a call that raises -- other than a [next], whose exception the
    loop or the unpacking looks at, and the forward pass, after which the
    context is left -- is the last call of the run, and its exception is
    what the run ends with: the notebook catches nothing. *)
Theorem failing_call_ends_the_run :
  forall W (h : handler W) (w : W) (i : nat) (e : entry) (x : string),
    run h w !! i = Some e ->
    got e = Raised x ->
    calls_object (made e) = false ->
    calls_fn (Fn "next") (made e) = false ->
    length (run h w) = S i /\ result h notebook w = Uncaught x.
Proof.
  intros W h w i e x Hi Hx Hobj Hnext.
  exact (failure_ends_spec _ _ (run_failure h w) i e x Hi Hx Hobj Hnext).
Qed.

Lemma failing_call_ends_the_run_witness :
  length (run broken_env tt) = 1%nat /\
  result broken_env notebook tt = Uncaught "FileNotFoundError".
Proof.
  eapply (failing_call_ends_the_run unit broken_env tt 0%nat _ "FileNotFoundError").
  - vm_compute. reflexivity.
  - vm_compute. reflexivity.
  - vm_compute. reflexivity.
  - vm_compute. reflexivity.
Defined.

(** X14: a context that was entered is left again: when [__enter__]
    returned, the next call is the forward pass and the call after it is
    [__exit__] on the same context, whether the forward pass returned or
    raised. *)
Theorem entered_context_is_left :
  forall W (h : handler W) (w : W) (i : nat) (e : entry) (cm v : value),
    run h w !! i = Some e ->
    target (made e) = Method cm "__enter__" ->
    got e = Returned v ->
    exists b x,
      run h w !! S i = Some b /\ calls_object (made b) = true /\
      run h w !! S (S i) = Some x /\ target (made x) = Method cm "__exit__".
Proof.
  intros W h w i e cm v Hi Ht Hv.
  destruct (entered_is_left_spec _ (run_entered h w) i e v Hi) as (b & x & Hb & Hob & Hx & Hex).
  { unfold calls_method. rewrite Ht. apply String.eqb_refl. }
  { exact Hv. }
  unfold calls_method in Hex.
  destruct (target (made x)) as [| cm' n' | |] eqn:Htx; try discriminate Hex.
  apply String.eqb_eq in Hex. subst n'.
  assert (Hsame : cm = cm').
  { apply (context_pairs_spec _ (run_contexts h w) i (made e) (made b) (made x)
             cm "__enter__" cm' "__exit__"); try assumption.
    - rewrite list_lookup_fmap, Hi. reflexivity.
    - rewrite list_lookup_fmap, Hb. reflexivity.
    - rewrite list_lookup_fmap, Hx. reflexivity. }
  subst cm'. exists b, x.
  split; [exact Hb |]. split; [exact Hob |]. split; [exact Hx | exact Htx].
Qed.

Lemma entered_context_is_left_witness :
  exists b x,
    run demo_env 0%nat !! 43%nat = Some b /\ calls_object (made b) = true /\
    run demo_env 0%nat !! 44%nat = Some x /\
    target (made x) = Method (VObj 24) "__exit__".
Proof.
  eapply (entered_context_is_left nat demo_env 0%nat 42%nat (demo_entry 42)).
  - vm_compute. reflexivity.
  - vm_compute. reflexivity.
  - vm_compute. reflexivity.
Defined.
